(** * Recording session of the slidev client (packages/client/logic/recording.ts)

    A shallow embedding of the capture session: the module-level selection
    refs, the refs closed over by [useRecording], and the asynchronous
    functions written in a small monad that threads the session state, the
    answers of the platform and the log of what was asked of it. *)

From stdpp Require Import base strings list gmap pretty.

Open Scope string_scope.

(** ** Data model *)

(** [MediaDeviceInfo], as enumerated by the device list provider. *)
Record MediaDeviceInfo := { deviceId : string; label : string }.

(** The four readings [getFilename] takes from [new Date()].
    [getMonth] is zero-based, as in JavaScript. *)
Record Date := { getMonth : nat; getDate : nat; getHours : nat; getMinutes : nat }.

Inductive TrackKind := Video | Audio.

(** A [MediaStreamTrack]: an object with an identity; whether [stop()] was
    called on it is kept in the store ([ended]), since one track can sit in
    two streams. *)
Record Track := { tid : nat; tkind : TrackKind }.

Record MediaStream := { sid : nat; tracks : list Track }.

(** A file handle as returned by [showSaveFilePicker]. *)
Record FileHandle := { fid : nat; suggestedName : string }.

(** A RecordRTC instance: the stream it was constructed on and the handle
    whose writable stream it writes to. *)
Record Recorder := { r_stream : nat; r_file : FileHandle }.

Inductive Which := Camera | Slides.

(** What the platform and the recording engine are asked to do, in order. *)
Inductive Event :=
| ShowSaveFilePicker (name : string)
| EnsurePermissions
| NextTick
| ImportRecorder
| GetUserMedia (video audio : option string)
| GetDisplayMedia
| CreateWritable (h : FileHandle)
| RecorderStart (w : Which)
| RecorderStop (w : Which)
| SetRecording (b : bool).

(** How an awaited promise settles; for the two stream requests the kinds of
    the tracks of the stream the platform hands out. *)
Inductive Response := Resolve (kinds : list TrackKind) | Reject.

(** The stop callbacks handed to the engine and not yet called back. *)
Inductive Callback := CbCamera | CbSlides.

Record State := {
  (* ../state and the module-level refs *)
  currentCamera : string;
  currentMic : string;
  recordingName : string;
  recordCamera : bool;
  cameras : list MediaDeviceInfo;
  microphones : list MediaDeviceInfo;
  (* useRecording *)
  recording : bool;
  showAvatar : bool;
  recorderCamera : option Recorder;
  recorderSlides : option Recorder;
  streamCamera : option MediaStream;
  streamSlides : option MediaStream;
  (* the platform *)
  clock : Date;
  ended : gset nat;
  nextId : nat;
  pending : list Callback
}.

Definition set_currentCamera (v : string) (s : State) : State :=
  {| currentCamera := v; currentMic := currentMic s; recordingName :=
     recordingName s; recordCamera := recordCamera s; cameras := cameras s;
     microphones := microphones s; recording := recording s; showAvatar :=
     showAvatar s; recorderCamera := recorderCamera s; recorderSlides :=
     recorderSlides s; streamCamera := streamCamera s; streamSlides :=
     streamSlides s; clock := clock s; ended := ended s; nextId := nextId s;
     pending := pending s |}.
Definition set_currentMic (v : string) (s : State) : State :=
  {| currentCamera := currentCamera s; currentMic := v; recordingName :=
     recordingName s; recordCamera := recordCamera s; cameras := cameras s;
     microphones := microphones s; recording := recording s; showAvatar :=
     showAvatar s; recorderCamera := recorderCamera s; recorderSlides :=
     recorderSlides s; streamCamera := streamCamera s; streamSlides :=
     streamSlides s; clock := clock s; ended := ended s; nextId := nextId s;
     pending := pending s |}.
Definition set_recordingName (v : string) (s : State) : State :=
  {| currentCamera := currentCamera s; currentMic := currentMic s;
     recordingName := v; recordCamera := recordCamera s; cameras := cameras
     s; microphones := microphones s; recording := recording s; showAvatar
     := showAvatar s; recorderCamera := recorderCamera s; recorderSlides :=
     recorderSlides s; streamCamera := streamCamera s; streamSlides :=
     streamSlides s; clock := clock s; ended := ended s; nextId := nextId s;
     pending := pending s |}.
Definition set_recordCamera (v : bool) (s : State) : State :=
  {| currentCamera := currentCamera s; currentMic := currentMic s;
     recordingName := recordingName s; recordCamera := v; cameras := cameras
     s; microphones := microphones s; recording := recording s; showAvatar
     := showAvatar s; recorderCamera := recorderCamera s; recorderSlides :=
     recorderSlides s; streamCamera := streamCamera s; streamSlides :=
     streamSlides s; clock := clock s; ended := ended s; nextId := nextId s;
     pending := pending s |}.
Definition set_cameras (v : list MediaDeviceInfo) (s : State) : State :=
  {| currentCamera := currentCamera s; currentMic := currentMic s;
     recordingName := recordingName s; recordCamera := recordCamera s;
     cameras := v; microphones := microphones s; recording := recording s;
     showAvatar := showAvatar s; recorderCamera := recorderCamera s;
     recorderSlides := recorderSlides s; streamCamera := streamCamera s;
     streamSlides := streamSlides s; clock := clock s; ended := ended s;
     nextId := nextId s; pending := pending s |}.
Definition set_microphones (v : list MediaDeviceInfo) (s : State) : State :=
  {| currentCamera := currentCamera s; currentMic := currentMic s;
     recordingName := recordingName s; recordCamera := recordCamera s;
     cameras := cameras s; microphones := v; recording := recording s;
     showAvatar := showAvatar s; recorderCamera := recorderCamera s;
     recorderSlides := recorderSlides s; streamCamera := streamCamera s;
     streamSlides := streamSlides s; clock := clock s; ended := ended s;
     nextId := nextId s; pending := pending s |}.
Definition set_recording (v : bool) (s : State) : State :=
  {| currentCamera := currentCamera s; currentMic := currentMic s;
     recordingName := recordingName s; recordCamera := recordCamera s;
     cameras := cameras s; microphones := microphones s; recording := v;
     showAvatar := showAvatar s; recorderCamera := recorderCamera s;
     recorderSlides := recorderSlides s; streamCamera := streamCamera s;
     streamSlides := streamSlides s; clock := clock s; ended := ended s;
     nextId := nextId s; pending := pending s |}.
Definition set_showAvatar (v : bool) (s : State) : State :=
  {| currentCamera := currentCamera s; currentMic := currentMic s;
     recordingName := recordingName s; recordCamera := recordCamera s;
     cameras := cameras s; microphones := microphones s; recording :=
     recording s; showAvatar := v; recorderCamera := recorderCamera s;
     recorderSlides := recorderSlides s; streamCamera := streamCamera s;
     streamSlides := streamSlides s; clock := clock s; ended := ended s;
     nextId := nextId s; pending := pending s |}.
Definition set_recorderCamera (v : option Recorder) (s : State) : State :=
  {| currentCamera := currentCamera s; currentMic := currentMic s;
     recordingName := recordingName s; recordCamera := recordCamera s;
     cameras := cameras s; microphones := microphones s; recording :=
     recording s; showAvatar := showAvatar s; recorderCamera := v;
     recorderSlides := recorderSlides s; streamCamera := streamCamera s;
     streamSlides := streamSlides s; clock := clock s; ended := ended s;
     nextId := nextId s; pending := pending s |}.
Definition set_recorderSlides (v : option Recorder) (s : State) : State :=
  {| currentCamera := currentCamera s; currentMic := currentMic s;
     recordingName := recordingName s; recordCamera := recordCamera s;
     cameras := cameras s; microphones := microphones s; recording :=
     recording s; showAvatar := showAvatar s; recorderCamera :=
     recorderCamera s; recorderSlides := v; streamCamera := streamCamera s;
     streamSlides := streamSlides s; clock := clock s; ended := ended s;
     nextId := nextId s; pending := pending s |}.
Definition set_streamCamera (v : option MediaStream) (s : State) : State :=
  {| currentCamera := currentCamera s; currentMic := currentMic s;
     recordingName := recordingName s; recordCamera := recordCamera s;
     cameras := cameras s; microphones := microphones s; recording :=
     recording s; showAvatar := showAvatar s; recorderCamera :=
     recorderCamera s; recorderSlides := recorderSlides s; streamCamera :=
     v; streamSlides := streamSlides s; clock := clock s; ended := ended s;
     nextId := nextId s; pending := pending s |}.
Definition set_streamSlides (v : option MediaStream) (s : State) : State :=
  {| currentCamera := currentCamera s; currentMic := currentMic s;
     recordingName := recordingName s; recordCamera := recordCamera s;
     cameras := cameras s; microphones := microphones s; recording :=
     recording s; showAvatar := showAvatar s; recorderCamera :=
     recorderCamera s; recorderSlides := recorderSlides s; streamCamera :=
     streamCamera s; streamSlides := v; clock := clock s; ended := ended s;
     nextId := nextId s; pending := pending s |}.
Definition set_clock (v : Date) (s : State) : State :=
  {| currentCamera := currentCamera s; currentMic := currentMic s;
     recordingName := recordingName s; recordCamera := recordCamera s;
     cameras := cameras s; microphones := microphones s; recording :=
     recording s; showAvatar := showAvatar s; recorderCamera :=
     recorderCamera s; recorderSlides := recorderSlides s; streamCamera :=
     streamCamera s; streamSlides := streamSlides s; clock := v; ended :=
     ended s; nextId := nextId s; pending := pending s |}.
Definition set_ended (v : gset nat) (s : State) : State :=
  {| currentCamera := currentCamera s; currentMic := currentMic s;
     recordingName := recordingName s; recordCamera := recordCamera s;
     cameras := cameras s; microphones := microphones s; recording :=
     recording s; showAvatar := showAvatar s; recorderCamera :=
     recorderCamera s; recorderSlides := recorderSlides s; streamCamera :=
     streamCamera s; streamSlides := streamSlides s; clock := clock s; ended
     := v; nextId := nextId s; pending := pending s |}.
Definition set_nextId (v : nat) (s : State) : State :=
  {| currentCamera := currentCamera s; currentMic := currentMic s;
     recordingName := recordingName s; recordCamera := recordCamera s;
     cameras := cameras s; microphones := microphones s; recording :=
     recording s; showAvatar := showAvatar s; recorderCamera :=
     recorderCamera s; recorderSlides := recorderSlides s; streamCamera :=
     streamCamera s; streamSlides := streamSlides s; clock := clock s; ended
     := ended s; nextId := v; pending := pending s |}.
Definition set_pending (v : list Callback) (s : State) : State :=
  {| currentCamera := currentCamera s; currentMic := currentMic s;
     recordingName := recordingName s; recordCamera := recordCamera s;
     cameras := cameras s; microphones := microphones s; recording :=
     recording s; showAvatar := showAvatar s; recorderCamera :=
     recorderCamera s; recorderSlides := recorderSlides s; streamCamera :=
     streamCamera s; streamSlides := streamSlides s; clock := clock s; ended
     := ended s; nextId := nextId s; pending := v |}.

#[global] Instance TrackKind_eq_dec : EqDecision TrackKind.
Proof. solve_decision. Defined.

(** ** getFilename *)

(** [`${v}`.padStart(n, pad)]: nothing to do when the string is long enough
    or the pad is empty, else the pad repeated and cut to the missing length
    goes in front. *)
Definition padStart (n : nat) (pad : string) (s : string) : string :=
  let missing := n - String.length s in
  match missing, pad with
  | 0, _ => s
  | _, "" => s
  | _, _ => String.substring 0 missing (String.concat "" (replicate missing pad)) ++ s
  end.

Definition pad (v : nat) : string := padStart 2 "0" (pretty v).

(** [isTruthy] on [string | undefined]. *)
Definition isTruthy (v : option string) : bool :=
  match v with
  | Some "" | None => false
  | Some _ => true
  end.

Definition filter_isTruthy (l : list (option string)) : list string :=
  omap (fun v => if isTruthy v then v else None) l.

Definition date_part (d : Date) : string :=
  pad (getMonth d + 1) ++ pad (getDate d) ++ "-" ++ pad (getHours d) ++ pad (getMinutes d).

(** The body of [getFilename], given what it reads: the [recordingName] ref
    and the clock. *)
Definition filename (name : string) (d : Date) (media : option string) : string :=
  let date := date_part d in
  String.concat "-" (filter_isTruthy [media; Some name; Some date]) ++ ".webm".

Definition getFilename (s : State) (media : option string) : string :=
  filename (recordingName s) (clock s) media.

(** The format in the words of the interface description:
    [<kind?>-<name?>-MMDD-HHMM.webm], two digits per field, the components
    joined with [-] and the empty ones dropped. *)
Definition digit (n : nat) : string :=
  String (Ascii.ascii_of_nat (48 + n)) "".

Definition two_digits (n : nat) : string := digit (n / 10) ++ digit (n mod 10).

Definition MMDD_HHMM (month day hours minutes : nat) : string :=
  two_digits month ++ two_digits day ++ "-" ++ two_digits hours ++ two_digits minutes.

Definition filename_format (kind name : string) (month day hours minutes : nat) : string :=
  String.concat "-"
    (List.filter (fun c => negb (String.eqb c ""))
       [kind; name; MMDD_HHMM month day hours minutes]) ++ ".webm".

Definition valid_date (d : Date) : Prop :=
  getMonth d < 12 /\ 1 <= getDate d <= 31 /\ getHours d < 24 /\ getMinutes d < 60.

(** ** The device list handler *)

Definition has_device (id : string) (l : list MediaDeviceInfo) : bool :=
  match List.find (fun i => String.eqb (deviceId i) id) l with
  | Some _ => true
  | None => false
  end.

(** [l[0]?.deviceId || 'default'] *)
Definition first_or_default (l : list MediaDeviceInfo) : string :=
  match l with
  | [] => "default"
  | i :: _ => if String.eqb (deviceId i) "" then "default" else deviceId i
  end.

Definition onUpdated (s : State) : State :=
  let s1 :=
    if negb (String.eqb (currentCamera s) "none") then
      if negb (has_device (currentCamera s) (cameras s))
      then set_currentCamera (first_or_default (cameras s)) s
      else s
    else s in
  if negb (String.eqb (currentMic s1) "none") then
    if negb (has_device (currentMic s1) (microphones s1))
    then set_currentMic (first_or_default (microphones s1)) s1
    else s1
  else s1.

(** The rule of the handler for one kind of device: a selection other than
    [none] that is not in the list becomes the id of the first listed device
    when there is one and its id is not the empty string, and [default] when
    the list is empty or the first id is empty; a selection that is listed,
    and the selection [none], stay. *)
Definition fallback_rule (old : string) (l : list MediaDeviceInfo) (new : string) : Prop :=
  (old = "none" -> new = "none")
  /\ (forall i, i ∈ l -> deviceId i = old -> new = old)
  /\ (old <> "none" -> (forall i, i ∈ l -> deviceId i <> old) ->
      (l = [] -> new = "default")
      /\ (forall i l', l = i :: l' -> deviceId i <> "" -> new = deviceId i)
      /\ (forall i l', l = i :: l' -> deviceId i = "" -> new = "default")).

(** ** Streams *)

Definition stream_of (w : Which) (s : State) : option MediaStream :=
  match w with Camera => streamCamera s | Slides => streamSlides s end.

Definition set_stream (w : Which) (v : option MediaStream) (s : State) : State :=
  match w with Camera => set_streamCamera v s | Slides => set_streamSlides v s end.

Definition track_ids (st : MediaStream) : list nat := tid <$> tracks st.

(** [closeStream(stream)]: nothing on an unset ref; else every track is
    stopped and taken out of the stream, and the ref is unset. The emptied
    stream object is not read again through any other reference, so only the
    stopped tracks and the unset ref are kept. *)
Definition closeStream (w : Which) (s : State) : State :=
  match stream_of w s with
  | None => s
  | Some st => set_stream w None (set_ended (ended s ∪ list_to_set (track_ids st)) s)
  end.

Definition getAudioTracks (st : MediaStream) : list Track :=
  List.filter (fun t => bool_decide (tkind t = Audio)) (tracks st).

(** [MediaStream.addTrack]: a track already in the stream is not added again. *)
Definition addTrack (t : Track) (st : MediaStream) : MediaStream :=
  if bool_decide (tid t ∈ track_ids st) then st
  else {| sid := sid st; tracks := tracks st ++ [t] |}.

(** The stream a resolved [getUserMedia] or [getDisplayMedia] hands out:
    a new stream object with new tracks of the given kinds. *)
Definition new_tracks (first : nat) (kinds : list TrackKind) : list Track :=
  imap (fun i k => {| tid := first + i; tkind := k |}) kinds.

Definition new_stream (kinds : list TrackKind) (s : State) : MediaStream * State :=
  ({| sid := nextId s; tracks := new_tracks (S (nextId s)) kinds |},
   set_nextId (S (nextId s) + length kinds) s).

(** ** The monad of the asynchronous functions

    A computation reads and writes the session state, consumes the answers
    of the platform in the order it awaits them, and logs what it asked. It
    ends by returning, by throwing (an awaited promise was rejected: nothing
    in the module catches), or still awaiting an answer that has not come. *)

Inductive Outcome (A : Type) := Returned (a : A) | Thrown | Awaiting.
Arguments Returned {A} a.
Arguments Thrown {A}.
Arguments Awaiting {A}.

Record Run (A : Type) := MkRun {
  outcome : Outcome A;
  final : State;
  unused : list Response;
  trace : list Event
}.
Arguments MkRun {A}.
Arguments outcome {A}.
Arguments final {A}.
Arguments unused {A}.
Arguments trace {A}.

Definition M (A : Type) : Type := State -> list Response -> Run A.

#[global] Instance M_ret : MRet M := fun A a s rs => MkRun (Returned a) s rs [].

#[global] Instance M_bind : MBind M := fun A B k m s rs =>
  match m s rs with
  | MkRun (Returned a) s1 rs1 t1 =>
      match k a s1 rs1 with
      | MkRun o s2 rs2 t2 => MkRun o s2 rs2 (t1 ++ t2)
      end
  | MkRun Thrown s1 rs1 t1 => MkRun Thrown s1 rs1 t1
  | MkRun Awaiting s1 rs1 t1 => MkRun Awaiting s1 rs1 t1
  end.

Definition get : M State := fun s rs => MkRun (Returned s) s rs [].

Definition modify (f : State -> State) : M unit := fun s rs => MkRun (Returned tt) (f s) rs [].

(** A synchronous call that is logged. *)
Definition emit (e : Event) : M unit := fun s rs => MkRun (Returned tt) s rs [e].

(** [await] of a platform call. *)
Definition await (e : Event) : M (list TrackKind) := fun s rs =>
  match rs with
  | [] => MkRun Awaiting s [] [e]
  | Resolve kinds :: rs' => MkRun (Returned kinds) s rs' [e]
  | Reject :: rs' => MkRun Thrown s rs' [e]
  end.

Definition alloc_stream (kinds : list TrackKind) : M MediaStream := fun s rs =>
  MkRun (Returned (new_stream kinds s).1) (new_stream kinds s).2 rs [].

Definition await_stream (e : Event) : M MediaStream :=
  kinds ← await e; alloc_stream kinds.

(** The engine's constructor throws when it is given no stream. *)
Definition throw {A} : M A := fun s rs => MkRun Thrown s rs [].

Definition write_recording (b : bool) : M unit :=
  modify (set_recording b);; emit (SetRecording b).

(** The first [n] awaited promises resolve. *)
Fixpoint resolves (n : nat) (rs : list Response) : bool :=
  match n with
  | 0 => true
  | S n' => match rs with Resolve _ :: rs' => resolves n' rs' | _ => false end
  end.

Definition is_getUserMedia (e : Event) : bool :=
  match e with GetUserMedia _ _ => true | _ => false end.

Definition is_picker (e : Event) : bool :=
  match e with ShowSaveFilePicker _ => true | _ => false end.

(** ** useRecording *)

Definition startCameraStream : M unit :=
  await EnsurePermissions;;
  await NextTick;;
  s ← get;
  match streamCamera s with
  | Some _ => mret tt
  | None =>
      if String.eqb (currentCamera s) "none" && String.eqb (currentMic s) "none"
      then mret tt
      else
        st ← await_stream
               (GetUserMedia
                  (if String.eqb (currentCamera s) "none" || negb (recordCamera s)
                   then None else Some (currentCamera s))
                  (if String.eqb (currentMic s) "none"
                   then None else Some (currentMic s)));
        modify (set_streamCamera (Some st))
  end.

Definition toggleAvatar : M unit :=
  s ← get;
  if String.eqb (currentCamera s) "none" then mret tt
  else if showAvatar s then
    modify (set_showAvatar false);;
    s ← get;
    if negb (recording s) then modify (closeStream Camera) else mret tt
  else
    startCameraStream;;
    s ← get;
    match streamCamera s with
    | Some _ => modify (set_showAvatar true)
    | None => mret tt
    end.

(** The callback of [watch(currentCamera, ...)], called with the new value. *)
Definition watch_currentCamera (v : string) : M unit :=
  if String.eqb v "none" then modify (closeStream Camera)
  else
    s ← get;
    if recording s then mret tt
    else
      match streamCamera s with
      | Some _ => modify (closeStream Camera);; startCameraStream
      | None => mret tt
      end.

Definition alloc_handle (fileName : string) : M FileHandle := fun s rs =>
  MkRun (Returned {| fid := nextId s; suggestedName := fileName |})
        (set_nextId (S (nextId s)) s) rs [].

Definition getFileHandle (fileName : string) : M FileHandle :=
  await (ShowSaveFilePicker fileName);; alloc_handle fileName.

Definition startRecording : M unit :=
  s ← get;
  cameraFileHandle ←
    (if recordCamera s
     then h ← getFileHandle (getFilename s (Some "camera")); mret (Some h)
     else mret None);
  s ← get;
  screenFileHandle ← getFileHandle (getFilename s (Some "screen"));
  await EnsurePermissions;;
  await ImportRecorder;;
  startCameraStream;;
  display ← await_stream GetDisplayMedia;
  modify (set_streamSlides (Some display));;
  s ← get;
  match streamCamera s with
  | Some sc =>
      match getAudioTracks sc with
      | audioTrack :: _ =>
          modify (fun s => set_streamSlides (addTrack audioTrack <$> streamSlides s) s)
      | [] => mret tt
      end;;
      s ← get;
      match recordCamera s, cameraFileHandle with
      | true, Some h =>
          await (CreateWritable h);;
          modify (set_recorderCamera (Some {| r_stream := sid sc; r_file := h |}));;
          emit (RecorderStart Camera)
      | _, _ => mret tt
      end
  | None => mret tt
  end;;
  s ← get;
  let slides := streamSlides s in
  await (CreateWritable screenFileHandle);;
  match slides with
  | Some sl =>
      modify (set_recorderSlides (Some {| r_stream := sid sl; r_file := screenFileHandle |}));;
      emit (RecorderStart Slides);;
      write_recording true
  | None => throw
  end.

Definition push_pending (cb : Callback) (s : State) : State :=
  set_pending (pending s ++ [cb]) s.

(** [stopRecording] has no [await]: it runs through. The callbacks it hands
    to the two recorders are kept in [pending] until the engine calls them. *)
Definition stopRecording : M unit :=
  write_recording false;;
  s ← get;
  match recorderCamera s with
  | Some _ => emit (RecorderStop Camera);; modify (push_pending CbCamera)
  | None => mret tt
  end;;
  s ← get;
  match recorderSlides s with
  | Some _ => emit (RecorderStop Slides);; modify (push_pending CbSlides)
  | None => mret tt
  end.

Definition run_callback (cb : Callback) (s : State) : State :=
  match cb with
  | CbCamera =>
      let s1 := set_recorderCamera None s in
      if negb (showAvatar s1) then closeStream Camera s1 else s1
  | CbSlides => set_recorderSlides None (closeStream Slides s)
  end.

(** The engine calls back the [n]-th callback it still holds. *)
Definition fire (n : nat) (s : State) : State :=
  match pending s !! n with
  | Some cb => run_callback cb (set_pending (delete n (pending s)) s)
  | None => s
  end.

(** The engine calls back, one after the other, the callbacks at the given
    positions of what it still holds. *)
Definition fire_all (order : list nat) (s : State) : State :=
  foldl (fun s n => fire n s) s order.

(** The ids of the tracks of the stream a ref holds, if any. *)
Definition held_ids (o : option MediaStream) : list nat :=
  match o with Some st => track_ids st | None => [] end.

(** What holds from the return of [stopRecording] on, whichever stop
    callbacks have been called so far; [s1] is the session as [stopRecording]
    found it. *)
Definition tearing_down (s1 s : State) : Prop :=
  recording s = false
  /\ showAvatar s = showAvatar s1
  /\ ((CbSlides ∈ pending s /\ streamSlides s = streamSlides s1)
      \/ (recorderSlides s = None /\ streamSlides s = None
          /\ forall i, i ∈ held_ids (streamSlides s1) -> i ∈ ended s))
  /\ (recorderCamera s = None \/ CbCamera ∈ pending s)
  /\ (is_Some (recorderCamera s1) -> showAvatar s1 = false ->
      (CbCamera ∈ pending s /\ streamCamera s = streamCamera s1)
      \/ (streamCamera s = None
          /\ forall i, i ∈ held_ids (streamCamera s1) -> i ∈ ended s))
  /\ (showAvatar s1 = true -> streamCamera s = streamCamera s1).

(** ** The session as a transition system

    What can happen to the session, one thing at a time: a call of one of the
    exported functions (with the answers the platform gives to its awaits),
    the engine calling back a stop callback, the UI writing one of the
    selection refs, the device list changing. A write to [currentCamera] that
    changes it runs the watcher. *)

Inductive Action :=
| ToggleAvatar (rs : list Response)
| StartRecording (rs : list Response)
| StopRecording
| Fire (n : nat)
| SelectCamera (v : string) (rs : list Response)
| SelectMic (v : string)
| SetRecordCamera (b : bool)
| SetRecordingName (name : string)
| DevicesUpdated (cams mics : list MediaDeviceInfo) (rs : list Response)
| Tick (d : Date).

Definition camera_changed (old : string) (rs : list Response) (s : State) : State :=
  if String.eqb (currentCamera s) old then s
  else final (watch_currentCamera (currentCamera s) s rs).

Definition step (s : State) (a : Action) : State :=
  match a with
  | ToggleAvatar rs => final (toggleAvatar s rs)
  | StartRecording rs => final (startRecording s rs)
  | StopRecording => final (stopRecording s [])
  | Fire n => fire n s
  | SelectCamera v rs => camera_changed (currentCamera s) rs (set_currentCamera v s)
  | SelectMic v => set_currentMic v s
  | SetRecordCamera b => set_recordCamera b s
  | SetRecordingName name => set_recordingName name s
  | DevicesUpdated cams mics rs =>
      camera_changed (currentCamera s) rs
        (onUpdated (set_microphones mics (set_cameras cams s)))
  | Tick d => set_clock d s
  end.

(** The session when the module has been loaded; the two selections come
    from [../state]. *)
Definition init (camera mic : string) (now : Date) : State :=
  {| currentCamera := camera; currentMic := mic; recordingName := "";
     recordCamera := true; cameras := []; microphones := [];
     recording := false; showAvatar := false;
     recorderCamera := None; recorderSlides := None;
     streamCamera := None; streamSlides := None;
     clock := now; ended := ∅; nextId := 0; pending := [] |}.






(** ** The unload guard *)

(** What the [beforeunload] listener can do to the event it is given. *)
Record UnloadEvent := { defaultPrevented : bool; returnValue : option string }.

(** The listener registered by [useEventListener('beforeunload', ...)].
    [leave] is what [confirm] answers if it is called; the second component
    of the result tells whether it was called. *)
Definition beforeunload (s : State) (leave : bool) (event : UnloadEvent) : UnloadEvent * bool :=
  if negb (recording s) then (event, false)
  else if leave then (event, true)
  else ({| defaultPrevented := true; returnValue := Some "" |}, true).

(** ** download *)

(** The part of the document [download] touches: the elements created so
    far, by identity, with their attributes; the children of [document.body]
    in order; and the clicks made, each with the element as it was and
    whether it was in the body. *)
Record Element := { tagName : string; attributes : gmap string string }.

Record Document := {
  elements : gmap nat Element;
  body : list nat;
  nextNode : nat;
  clicks : list (option Element * bool)
}.

Definition createElement (tag : string) (d : Document) : nat * Document :=
  (nextNode d,
   {| elements := <[nextNode d := {| tagName := tag; attributes := ∅ |}]> (elements d);
      body := body d; nextNode := S (nextNode d); clicks := clicks d |}).

Definition setAttribute (n : nat) (k v : string) (d : Document) : Document :=
  {| elements :=
       alter (fun e => {| tagName := tagName e; attributes := <[k := v]> (attributes e) |})
             n (elements d);
     body := body d; nextNode := nextNode d; clicks := clicks d |}.

(** [appendChild] moves a node that is already a child to the end. *)
Definition appendChild (n : nat) (d : Document) : Document :=
  {| elements := elements d;
     body := (List.filter (fun m => negb (Nat.eqb m n)) (body d) ++ [n])%list;
     nextNode := nextNode d; clicks := clicks d |}.

Definition click (n : nat) (d : Document) : Document :=
  {| elements := elements d; body := body d; nextNode := nextNode d;
     clicks := (clicks d ++ [(elements d !! n, bool_decide (n ∈ body d))])%list |}.

(** [removeChild] throws on a node that is not a child. *)
Definition removeChild (n : nat) (d : Document) : option Document :=
  if bool_decide (n ∈ body d)
  then Some {| elements := elements d;
               body := List.filter (fun m => negb (Nat.eqb m n)) (body d);
               nextNode := nextNode d; clicks := clicks d |}
  else None.

Definition download (name url : string) (d : Document) : option Document :=
  let (a, d) := createElement "a" d in
  let d := setAttribute a "href" url d in
  let d := setAttribute a "download" name d in
  let d := appendChild a d in
  let d := click a d in
  removeChild a d.

(** Every child of the body is an element that was created. *)
Definition document_ok (d : Document) : Prop :=
  forall n, n ∈ body d -> n < nextNode d.

(** ** makeSeekable *)

Definition Blob : Type := list Byte.byte.

(** The function [makeSeekable(fileHandle)] returns, up to its call of
    [getSeekableBlob]: the whole file is read ([getFile] rejects when the
    file is gone) and handed over; the function does not wait for the
    callback. *)
Definition makeSeekable_read (fileHandle : FileHandle) (files : gmap nat Blob) : option Blob :=
  file ← files !! fid fileHandle;
  Some file.

(** The callback given to [getSeekableBlob]: a new writable stream on the
    handle, one write of the seekable blob, and the close that puts what was
    written in place of the file. *)
Definition makeSeekable_rewrite (fileHandle : FileHandle) (seekableBlob : Blob)
    (files : gmap nat Blob) (rs : list Response) : Outcome unit * gmap nat Blob :=
  match rs with
  | [] => (Awaiting, files)
  | Reject :: _ => (Thrown, files)
  | Resolve _ :: rs =>
      let rewriteStream : Blob := [] in
      match rs with
      | [] => (Awaiting, files)
      | Reject :: _ => (Thrown, files)
      | Resolve _ :: rs =>
          let rewriteStream := (rewriteStream ++ seekableBlob)%list in
          match rs with
          | [] => (Awaiting, files)
          | Reject :: _ => (Thrown, files)
          | Resolve _ :: _ => (Returned tt, <[fid fileHandle := rewriteStream]> files)
          end
      end
  end.

(** The two together, for a [getSeekableBlob] that calls back with the blob
    it computes. *)
Definition makeSeekable (getSeekableBlob : Blob -> Blob) (fileHandle : FileHandle)
    (files : gmap nat Blob) (rs : list Response) : Outcome unit * gmap nat Blob :=
  match makeSeekable_read fileHandle files with
  | None => (Thrown, files)
  | Some blob => makeSeekable_rewrite fileHandle (getSeekableBlob blob) files rs
  end.

(** * Properties *)

(** ** Running the asynchronous functions

    The runs are evaluated symbolically: the monad is unfolded, and each
    [await] splits on how its promise settles. *)

Arguments filename : simpl never.
Arguments getAudioTracks : simpl never.
Arguments new_tracks : simpl never.

Ltac run_unfold :=
  repeat (progress unfold mbind, M_bind, mret, M_ret, await_stream, alloc_stream,
            alloc_handle, getFileHandle, write_recording, await, get, modify, emit,
            throw);
  cbn.

Ltac run_known :=
  repeat match goal with
    | H : ?x = true |- context [?x] => rewrite H
    | H : ?x = false |- context [?x] => rewrite H
    | H : ?x = Some _ |- context [?x] => rewrite H
    | H : ?x = None |- context [?x] => rewrite H
    | H : ?x = [] |- context [?x] => rewrite H
    | H : ?x = _ :: _ |- context [?x] => rewrite H
    | H : currentCamera ?s = _ |- context [currentCamera ?s] => rewrite H
    | H : currentMic ?s = _ |- context [currentMic ?s] => rewrite H
    end.

Ltac run_step :=
  match goal with
  | |- context [match ?rs with [] => _ | _ :: _ => _ end] =>
      is_var rs; destruct rs as [|[?|] ?]
  | |- context [String.eqb ?a ?b] => destruct (String.eqb a b) eqn:?
  | |- context [negb ?b] => destruct b eqn:?
  | |- context [?a || _] => destruct a eqn:?
  | |- context [?a && _] => destruct a eqn:?
  | |- context [if ?b then _ else _] => destruct b eqn:?
  | |- context [match streamCamera ?s with Some _ => _ | None => _ end] =>
      destruct (streamCamera s) eqn:?
  | |- context [match getAudioTracks ?s with [] => _ | _ :: _ => _ end] =>
      destruct (getAudioTracks s) eqn:?
  end.

Ltac run := run_unfold; run_known; cbn; repeat (run_step; cbn; run_known; cbn).

Ltac run_await :=
  match goal with
  | |- context [match ?rs with [] => _ | _ :: _ => _ end] =>
      is_var rs; destruct rs as [|[?|] ?]
  | |- context [getAudioTracks ?s] => destruct (getAudioTracks s) eqn:?
  end.

Ltac run_awaits := run_unfold; run_known; cbn; repeat (run_await; cbn; run_known; cbn).

Ltac not_in_list :=
  let H := fresh in
  intros H;
  repeat (apply elem_of_cons in H as [H|H]; [discriminate H|]);
  apply elem_of_nil in H; exact H.

Ltac in_list := repeat first [apply list_elem_of_here | apply list_elem_of_further].

Ltac cut_last2 :=
  match goal with
  | |- exists pre, ?l = (pre ++ _)%list /\ _ => exists (take (length l - 2) l); cbn
  end.


(** ** getFilename *)

Lemma pad_two_digits (v : nat) : v < 100 -> pad v = two_digits v.
Proof.
  intros Hv.
  assert (H : forallb (fun n => String.eqb (pad n) (two_digits n)) (seq 0 100) = true)
    by (vm_compute; reflexivity).
  rewrite forallb_forall in H.
  apply String.eqb_eq, H, in_seq. lia.
Qed.

Lemma date_part_format (d : Date) :
  valid_date d ->
  date_part d = MMDD_HHMM (getMonth d + 1) (getDate d) (getHours d) (getMinutes d).
Proof.
  intros (Hm & Hd & Hh & Hmi). unfold date_part, MMDD_HHMM.
  rewrite !pad_two_digits by lia. reflexivity.
Qed.

Lemma MMDD_HHMM_nonempty (a b c d : nat) : MMDD_HHMM a b c d <> "".
Proof. unfold MMDD_HHMM, two_digits, digit. simpl. discriminate. Qed.

Lemma MMDD_HHMM_length (a b c d : nat) : String.length (MMDD_HHMM a b c d) = 9.
Proof. reflexivity. Qed.

(** C4. At 2024-03-05 14:07 with the name [Weekly], [getFilename('camera')]
    is [camera-Weekly-0305-1407.webm]; with an empty name, [getFilename()] is
    the nine characters [MMDD-HHMM] followed by [.webm]; and at every date
    the result is the kind, the name and the zero-padded [MMDD-HHMM] stamp
    joined with [-], the empty ones dropped, followed by [.webm]. *)
Theorem getFilename_format (s : State) (media : option string) :
  valid_date (clock s) ->
  let d := clock s in
  let stamp := MMDD_HHMM (getMonth d + 1) (getDate d) (getHours d) (getMinutes d) in
  (recordingName s = "Weekly" ->
   d = {| getMonth := 2; getDate := 5; getHours := 14; getMinutes := 7 |} ->
   getFilename s (Some "camera") = "camera-Weekly-0305-1407.webm")
  /\ (recordingName s = "" -> getFilename s None = stamp ++ ".webm")
  /\ String.length stamp = 9
  /\ getFilename s media
     = filename_format (default "" media) (recordingName s)
         (getMonth d + 1) (getDate d) (getHours d) (getMinutes d).
Proof.
  intros Hd d stamp. unfold getFilename, filename.
  rewrite (date_part_format _ Hd). fold d. fold stamp.
  pose proof (MMDD_HHMM_nonempty (getMonth d + 1) (getDate d) (getHours d) (getMinutes d)) as Hne.
  fold stamp in Hne.
  repeat split.
  - intros -> Hc. subst stamp. rewrite Hc. reflexivity.
  - intros ->. simpl. destruct stamp; [congruence | reflexivity].
  - unfold filename_format. fold stamp.
    destruct stamp as [|c st]; [congruence|].
    destruct media as [[|a m]|], (recordingName s) as [|b n]; reflexivity.
Qed.

Lemma getFilename_format_witness :
  let s := init "default" "default"
             {| getMonth := 11; getDate := 31; getHours := 23; getMinutes := 59 |} in
  valid_date (clock s)
  /\ getFilename s (Some "screen") = filename_format "screen" "" 12 31 23 59.
Proof.
  intros s.
  assert (Hd : valid_date (clock s)) by (unfold valid_date; simpl; lia).
  split; [exact Hd|].
  destruct (getFilename_format s (Some "screen") Hd) as (_ & _ & _ & H).
  exact H.
Defined.

(** ** The device list handler *)

Lemma has_device_absent (id : string) (l : list MediaDeviceInfo) :
  (forall i, i ∈ l -> deviceId i <> id) -> has_device id l = false.
Proof.
  intros H. unfold has_device.
  destruct (List.find _ l) as [i|] eqn:E; [|reflexivity].
  apply find_some in E as [Hin Heq].
  apply String.eqb_eq in Heq. apply list_elem_of_In in Hin.
  exfalso. exact (H i Hin Heq).
Qed.

Lemma has_device_present (id : string) (l : list MediaDeviceInfo) (i : MediaDeviceInfo) :
  i ∈ l -> deviceId i = id -> has_device id l = true.
Proof.
  intros Hin Heq. unfold has_device.
  destruct (List.find _ l) eqn:E; [reflexivity|].
  apply list_elem_of_In in Hin.
  pose proof (find_none _ _ E i Hin) as Hn. simpl in Hn.
  apply String.eqb_neq in Hn. contradiction.
Qed.

Lemma onUpdated_currentCamera (s : State) :
  currentCamera (onUpdated s)
  = if negb (String.eqb (currentCamera s) "none") && negb (has_device (currentCamera s) (cameras s))
    then first_or_default (cameras s) else currentCamera s.
Proof.
  unfold onUpdated.
  destruct (String.eqb (currentCamera s) "none"), (has_device (currentCamera s) (cameras s));
    simpl;
    repeat match goal with |- context [if ?b then _ else _] => destruct b end;
    reflexivity.
Qed.

Lemma onUpdated_currentMic (s : State) :
  currentMic (onUpdated s)
  = if negb (String.eqb (currentMic s) "none") && negb (has_device (currentMic s) (microphones s))
    then first_or_default (microphones s) else currentMic s.
Proof.
  unfold onUpdated.
  destruct (String.eqb (currentCamera s) "none"), (has_device (currentCamera s) (cameras s));
    simpl;
    destruct (String.eqb (currentMic s) "none"), (has_device (currentMic s) (microphones s));
    reflexivity.
Qed.

Lemma fallback_rule_holds (old : string) (l : list MediaDeviceInfo) :
  fallback_rule old l
    (if negb (String.eqb old "none") && negb (has_device old l)
     then first_or_default l else old).
Proof.
  unfold fallback_rule. repeat split.
  - intros ->. reflexivity.
  - intros i Hin Heq. rewrite (has_device_present _ _ _ Hin Heq).
    rewrite andb_false_r. reflexivity.
  - intros ->. apply String.eqb_neq in H. rewrite H, (has_device_absent _ _ H0). reflexivity.
  - intros i l' -> Hne. apply String.eqb_neq in H. rewrite H, (has_device_absent _ _ H0).
    simpl. apply String.eqb_neq in Hne. rewrite Hne. reflexivity.
  - intros i l' -> He. apply String.eqb_neq in H. rewrite H, (has_device_absent _ _ H0).
    simpl. rewrite He. reflexivity.
Qed.

(** C1, as the code has it. On every device-list update the camera selection
    and, independently, the microphone selection follow [fallback_rule]:
    an absent selection other than [none] becomes the first listed id if the
    list is not empty and that id is not the empty string, else [default];
    [none] is never changed. *)
Theorem onUpdated_fallback (s : State) :
  fallback_rule (currentCamera s) (cameras s) (currentCamera (onUpdated s))
  /\ fallback_rule (currentMic s) (microphones s) (currentMic (onUpdated s)).
Proof.
  rewrite onUpdated_currentCamera, onUpdated_currentMic.
  split; apply fallback_rule_holds.
Qed.

Lemma onUpdated_fallback_witness :
  let s := set_microphones []
             (set_cameras [ {| deviceId := "cam-2"; label := "USB camera" |} ]
                (init "cam-1" "mic-1" {| getMonth := 0; getDate := 1; getHours := 0; getMinutes := 0 |})) in
  currentCamera (onUpdated s) = "cam-2" /\ currentMic (onUpdated s) = "default".
Proof.
  intros s.
  destruct (onUpdated_fallback s) as [(_ & _ & Hcam) (_ & _ & Hmic)].
  split.
  - destruct Hcam as (_ & Hfirst & _).
    + discriminate.
    + intros i Hi. apply list_elem_of_singleton in Hi. subst i. discriminate.
    + exact (Hfirst _ [] eq_refl ltac:(discriminate)).
  - destruct Hmic as (Hempty & _).
    + discriminate.
    + intros i Hi. inversion Hi.
    + exact (Hempty eq_refl).
Defined.

(** C1 as stated fails: a first listed camera whose id is the empty string
    (as devices are enumerated before permission is granted) is not selected;
    [default] is. *)
Lemma onUpdated_first_id_counterexample :
  ~ (forall s : State,
        currentCamera s <> "none" ->
        (forall i, i ∈ cameras s -> deviceId i <> currentCamera s) ->
        currentCamera (onUpdated s)
        = match cameras s with [] => "default" | i :: _ => deviceId i end).
Proof.
  intros H.
  specialize (H (set_cameras [{| deviceId := ""; label := "" |}]
                   (init "cam-1" "none" {| getMonth := 0; getDate := 1; getHours := 0; getMinutes := 0 |}))).
  simpl in H.
  assert (Hc : "default" = "") ; [|discriminate Hc].
  apply H.
  - discriminate.
  - intros i Hi. apply list_elem_of_singleton in Hi. subst i. discriminate.
Qed.

Lemma new_tracks_kinds (first : nat) (kinds : list TrackKind) :
  tkind <$> new_tracks first kinds = kinds.
Proof.
  unfold new_tracks. generalize first. induction kinds as [|k kinds IH]; intros n.
  - reflexivity.
  - cbn. f_equal. rewrite <- (IH (S n)) at 2. f_equal.
    apply imap_ext. intros i x _. cbn. f_equal. lia.
Qed.

(** ** startCameraStream *)



Lemma startCameraStream_noop (s : State) (rs : list Response) :
  is_Some (streamCamera s) \/ (currentCamera s = "none" /\ currentMic s = "none") ->
  final (startCameraStream s rs) = s
  /\ List.filter is_getUserMedia (trace (startCameraStream s rs)) = [].
Proof.
  intros [[st Hst] | [Hc Hm]]; unfold startCameraStream; run; split; reflexivity.
Qed.

Lemma startCameraStream_settled (s : State) (rs : list Response) :
  outcome (startCameraStream s rs) = Returned tt ->
  is_Some (streamCamera (final (startCameraStream s rs)))
  \/ (currentCamera (final (startCameraStream s rs)) = "none"
      /\ currentMic (final (startCameraStream s rs)) = "none").
Proof.
  unfold startCameraStream. run; try discriminate; intros _.
  all: try (left; eexists; reflexivity).
  all: try (left; rewrite Heqo; eexists; reflexivity).
  all: right; split; apply String.eqb_eq; assumption.
Qed.

(** C7. Where a camera stream exists, [startCameraStream] changes nothing and
    asks for no stream; and a call made right after a call that returned
    changes nothing and asks for no stream either: twice is once. *)
Theorem startCameraStream_idempotent (s : State) (rs rs2 : list Response) :
  let r := startCameraStream s rs in
  let r2 := startCameraStream (final r) rs2 in
  (forall st, streamCamera s = Some st ->
     final r = s /\ List.filter is_getUserMedia (trace r) = [])
  /\ (outcome r = Returned tt ->
      final r2 = final r /\ List.filter is_getUserMedia (trace r2) = []).
Proof.
  intros r r2. subst r r2. split.
  - intros st Hst. apply startCameraStream_noop. left. rewrite Hst. eexists; reflexivity.
  - intros Ho. apply startCameraStream_noop, startCameraStream_settled, Ho.
Qed.

Lemma startCameraStream_idempotent_witness :
  let s := init "cam-1" "mic-1" {| getMonth := 0; getDate := 1; getHours := 0; getMinutes := 0 |} in
  let r := startCameraStream s [Resolve []; Resolve []; Resolve [Video; Audio]] in
  let r2 := startCameraStream (final r) [Resolve []; Resolve []; Resolve [Video; Audio]] in
  outcome r = Returned tt
  /\ streamCamera (final r)
     = Some {| sid := 0; tracks := [ {| tid := 1; tkind := Video |}; {| tid := 2; tkind := Audio |} ] |}
  /\ final r2 = final r
  /\ List.filter is_getUserMedia (trace r2) = [].
Proof.
  intros s r r2.
  assert (Ho : outcome r = Returned tt) by reflexivity.
  split; [exact Ho|]. split; [reflexivity|].
  exact (proj2 (startCameraStream_idempotent s _ _) Ho).
Defined.

(** ** closeStream *)

Lemma closeStream_unset (w : Which) (s : State) : stream_of w (closeStream w s) = None.
Proof.
  unfold closeStream. destruct (stream_of w s) eqn:E; [|exact E].
  destruct w; reflexivity.
Qed.

Lemma closeStream_ended (w : Which) (s : State) (st : MediaStream) (t : Track) :
  stream_of w s = Some st -> t ∈ tracks st -> tid t ∈ ended (closeStream w s).
Proof.
  intros E Ht. unfold closeStream. rewrite E.
  assert (tid t ∈ track_ids st) by (unfold track_ids; apply list_elem_of_fmap; eauto).
  destruct w; cbn; apply elem_of_union_r, elem_of_list_to_set; assumption.
Qed.

Lemma closeStream_ended_mono (w : Which) (s : State) : ended s ⊆ ended (closeStream w s).
Proof.
  unfold closeStream. destruct (stream_of w s); [|done].
  destruct w; cbn; set_solver.
Qed.

(** ** toggleAvatar *)

Lemma toggleAvatar_none (s : State) (rs : list Response) :
  currentCamera s = "none" -> toggleAvatar s rs = MkRun (Returned tt) s rs [].
Proof. intros Hc. unfold toggleAvatar. run. reflexivity. Qed.

Lemma toggleAvatar_hide (s : State) (rs : list Response) :
  currentCamera s <> "none" -> showAvatar s = true -> recording s = false ->
  toggleAvatar s rs = MkRun (Returned tt) (closeStream Camera (set_showAvatar false s)) rs [].
Proof.
  intros Hc Hs Hr. apply String.eqb_neq in Hc. unfold toggleAvatar. run. reflexivity.
Qed.

Lemma toggleAvatar_frame (s : State) (rs : list Response) :
  recording (final (toggleAvatar s rs)) = recording s
  /\ currentCamera (final (toggleAvatar s rs)) = currentCamera s.
Proof.
  unfold toggleAvatar, startCameraStream, closeStream. run; split; reflexivity.
Qed.

Lemma toggleAvatar_show (s : State) (rs : list Response) :
  currentCamera s <> "none" -> showAvatar s = false -> resolves 3 rs = true ->
  outcome (toggleAvatar s rs) = Returned tt
  /\ showAvatar (final (toggleAvatar s rs)) = true
  /\ is_Some (streamCamera (final (toggleAvatar s rs))).
Proof.
  intros Hc Hs. apply String.eqb_neq in Hc. unfold toggleAvatar, startCameraStream.
  run; try discriminate; intros _; repeat split; eauto.
Qed.

(** C8. [toggleAvatar] does nothing when the selected camera is [none]. In a
    state that is not recording and shows no avatar, a call that shows the
    avatar (as every call does whose awaits resolve, the camera not being
    [none]) followed by a second call leaves the avatar flag false and the
    camera stream unset, every track it had stopped. *)
Theorem toggleAvatar_twice :
  (forall s rs, currentCamera s = "none" -> toggleAvatar s rs = MkRun (Returned tt) s rs [])
  /\ (forall s rs1 rs2,
        recording s = false -> showAvatar s = false ->
        let r1 := toggleAvatar s rs1 in
        let r2 := toggleAvatar (final r1) rs2 in
        (currentCamera s <> "none" -> resolves 3 rs1 = true ->
         outcome r1 = Returned tt /\ showAvatar (final r1) = true
         /\ is_Some (streamCamera (final r1)))
        /\ (showAvatar (final r1) = true ->
            outcome r2 = Returned tt
            /\ showAvatar (final r2) = false
            /\ streamCamera (final r2) = None
            /\ forall st t, streamCamera (final r1) = Some st -> t ∈ tracks st ->
                            tid t ∈ ended (final r2))).
Proof.
  split; [exact toggleAvatar_none|].
  intros s rs1 rs2 Hr Hs r1 r2. split.
  - intros Hc Hres. exact (toggleAvatar_show s rs1 Hc Hs Hres).
  - intros Hshown.
    destruct (toggleAvatar_frame s rs1) as [Hr1 Hc1]. fold r1 in Hr1, Hc1.
    assert (Hc : currentCamera (final r1) <> "none").
    { intros Hn. rewrite Hc1 in Hn. subst r1. rewrite (toggleAvatar_none s rs1 Hn) in Hshown.
      cbn in Hshown. congruence. }
    rewrite Hr in Hr1. subst r2. rewrite (toggleAvatar_hide _ rs2 Hc Hshown Hr1). cbn.
    repeat split.
    + unfold closeStream. cbn. destruct (streamCamera (final r1)); reflexivity.
    + exact (closeStream_unset Camera _).
    + intros st t Hst Ht.
      exact (closeStream_ended Camera (set_showAvatar false (final r1)) st t Hst Ht).
Qed.

Lemma toggleAvatar_twice_witness :
  let s := init "cam-1" "mic-1" {| getMonth := 0; getDate := 1; getHours := 0; getMinutes := 0 |} in
  let r1 := toggleAvatar s [Resolve []; Resolve []; Resolve [Video; Audio]] in
  let r2 := toggleAvatar (final r1) [] in
  showAvatar (final r1) = true
  /\ showAvatar (final r2) = false
  /\ streamCamera (final r2) = None
  /\ 1 ∈ ended (final r2) /\ 2 ∈ ended (final r2).
Proof.
  intros s r1 r2.
  destruct toggleAvatar_twice as [_ H].
  specialize (H s [Resolve []; Resolve []; Resolve [Video; Audio]] [] eq_refl eq_refl).
  destruct H as [Hshow Hhide].
  destruct Hshow as (_ & Hshown & _); [discriminate | reflexivity |].
  destruct (Hhide Hshown) as (_ & Hflag & Hunset & Hstopped).
  split; [exact Hshown|]. split; [exact Hflag|]. split; [exact Hunset|].
  split.
  - apply (Hstopped _ {| tid := 1; tkind := Video |} eq_refl). apply list_elem_of_here.
  - apply (Hstopped _ {| tid := 2; tkind := Audio |} eq_refl).
    apply list_elem_of_further, list_elem_of_here.
Defined.



(** ** The watcher of the camera selection *)

Lemma watch_none (s : State) (rs : list Response) :
  watch_currentCamera "none" s rs = MkRun (Returned tt) (closeStream Camera s) rs [].
Proof. reflexivity. Qed.

Lemma watch_recording (s : State) (v : string) (rs : list Response) :
  v <> "none" -> recording s = true ->
  watch_currentCamera v s rs = MkRun (Returned tt) s rs [].
Proof.
  intros Hv Hr. apply String.eqb_neq in Hv. unfold watch_currentCamera. run. reflexivity.
Qed.

Lemma watch_no_stream (s : State) (v : string) (rs : list Response) :
  v <> "none" -> recording s = false -> streamCamera s = None ->
  watch_currentCamera v s rs = MkRun (Returned tt) s rs [].
Proof.
  intros Hv Hr Hs. apply String.eqb_neq in Hv. unfold watch_currentCamera. run. reflexivity.
Qed.

Lemma watch_restart (s : State) (v : string) (rs : list Response) (st : MediaStream) :
  v <> "none" -> recording s = false -> streamCamera s = Some st ->
  watch_currentCamera v s rs = startCameraStream (closeStream Camera s) rs.
Proof.
  intros Hv Hr Hs. apply String.eqb_neq in Hv. unfold watch_currentCamera. run.
  destruct (startCameraStream _ rs) as [[[]| |] ? ? ?]; reflexivity.
Qed.

(** C3, as the code has it. A change to [none] releases the camera stream at
    once, recording or not. A change to another value while recording does
    nothing. A change to another value while not recording does nothing when
    there is no camera stream; when there is one it is released (its tracks
    stopped) and [startCameraStream] asks for a new one: video from the new
    device when camera recording is enabled, audio from the selected
    microphone, held as the camera stream once the three awaits resolve. *)
Theorem watch_currentCamera_reaction :
  (forall s rs,
      let r := watch_currentCamera "none" s rs in
      outcome r = Returned tt /\ trace r = []
      /\ streamCamera (final r) = None
      /\ forall st t, streamCamera s = Some st -> t ∈ tracks st -> tid t ∈ ended (final r))
  /\ (forall s v rs, v <> "none" -> recording s = true ->
        watch_currentCamera v s rs = MkRun (Returned tt) s rs [])
  /\ (forall s v rs, v <> "none" -> recording s = false -> streamCamera s = None ->
        watch_currentCamera v s rs = MkRun (Returned tt) s rs [])
  /\ (forall s v rs st,
        v <> "none" -> recording s = false -> streamCamera s = Some st ->
        currentCamera s = v ->
        let r := watch_currentCamera v s rs in
        let request :=
          GetUserMedia (if recordCamera s then Some v else None)
                       (if String.eqb (currentMic s) "none" then None else Some (currentMic s)) in
        (forall t, t ∈ tracks st -> tid t ∈ ended (final r))
        /\ (outcome r <> Returned tt -> streamCamera (final r) = None)
        /\ (forall k1 k2 kinds rs', rs = Resolve k1 :: Resolve k2 :: Resolve kinds :: rs' ->
            outcome r = Returned tt
            /\ trace r = [EnsurePermissions; NextTick; request]
            /\ exists st', streamCamera (final r) = Some st'
                           /\ sid st' = nextId s /\ tkind <$> tracks st' = kinds)).
Proof.
  split; [|split; [exact watch_recording | split; [exact watch_no_stream|]]].
  - intros s rs r. subst r. rewrite watch_none. cbn. repeat split.
    + exact (closeStream_unset Camera s).
    + intros st t Hst Ht. exact (closeStream_ended Camera s st t Hst Ht).
  - intros s v rs st Hv Hr Hst Hc r request. subst r request.
    rewrite (watch_restart s v rs st Hv Hr Hst).
    apply String.eqb_neq in Hv. subst v.
    assert (He : forall t, t ∈ tracks st -> tid t ∈ ended (closeStream Camera s))
      by (intros t Ht; exact (closeStream_ended Camera s st t Hst Ht)).
    unfold closeStream in *. cbn in *. rewrite Hst in *. cbn in *.
    unfold startCameraStream. run.
    all: split; [exact He|]; split; [first [congruence | intros _; reflexivity]|].
    all: intros k1' k2' kinds' rs'' Heq; try discriminate Heq.
    all: injection Heq as -> -> -> ->; split; [reflexivity|]; split; [reflexivity|].
    all: eexists; split; [reflexivity|]; cbn; split; [reflexivity | apply new_tracks_kinds].
Qed.

Lemma watch_currentCamera_reaction_witness :
  let s := final (toggleAvatar
                    (init "cam-1" "mic-1" {| getMonth := 0; getDate := 1; getHours := 0; getMinutes := 0 |})
                    [Resolve []; Resolve []; Resolve [Video; Audio]]) in
  let s' := set_currentCamera "cam-2" s in
  let r := watch_currentCamera "cam-2" s' [Resolve []; Resolve []; Resolve [Video; Audio]] in
  streamCamera s' = Some {| sid := 0; tracks := [ {| tid := 1; tkind := Video |}; {| tid := 2; tkind := Audio |} ] |}
  /\ 1 ∈ ended (final r)
  /\ trace r = [EnsurePermissions; NextTick; GetUserMedia (Some "cam-2") (Some "mic-1")]
  /\ exists st', streamCamera (final r) = Some st' /\ sid st' = 3 /\ tkind <$> tracks st' = [Video; Audio].
Proof.
  intros s s' r.
  destruct watch_currentCamera_reaction as (_ & _ & _ & H).
  specialize (H s' "cam-2" [Resolve []; Resolve []; Resolve [Video; Audio]] _
                ltac:(discriminate) eq_refl eq_refl eq_refl).
  destruct H as (Hstop & _ & Hnew).
  destruct (Hnew _ _ _ _ eq_refl) as (_ & Htr & Hst).
  split; [reflexivity|]. split; [|split; [exact Htr | exact Hst]].
  apply (Hstop {| tid := 1; tkind := Video |}). apply list_elem_of_here.
Defined.

(** C3 as stated fails: with no camera stream, a change of the selection to
    another camera while not recording acquires nothing. *)
Lemma watch_currentCamera_no_stream_counterexample :
  ~ (forall s v rs,
        v <> "none" -> recording s = false -> currentCamera s = v ->
        resolves 3 rs = true ->
        is_Some (streamCamera (final (watch_currentCamera v s rs)))).
Proof.
  intros H.
  specialize (H (init "cam-2" "mic-1" {| getMonth := 0; getDate := 1; getHours := 0; getMinutes := 0 |})
                "cam-2" [Resolve []; Resolve []; Resolve [Video; Audio]]
                ltac:(discriminate) eq_refl eq_refl eq_refl).
  cbn in H. destruct H as [st H]. discriminate H.
Qed.

(** ** startRecording *)

Lemma addTrack_has (t : Track) (st : MediaStream) : tid t ∈ track_ids (addTrack t st).
Proof.
  unfold addTrack. case_bool_decide as H; [exact H|].
  unfold track_ids. cbn. rewrite fmap_app. apply elem_of_app. right. apply list_elem_of_here.
Qed.

(** One symbolic run of [startRecording] over every way its awaits can
    settle: what it asked and in which order, and what it left behind. *)
Lemma startRecording_run (s : State) (rs : list Response) o f u t :
  startRecording s rs = MkRun o f u t ->
  let pickers :=
    ((if recordCamera s then [ShowSaveFilePicker (getFilename s (Some "camera"))] else [])
       ++ [ShowSaveFilePicker (getFilename s (Some "screen"))])%list in
  (prefix t pickers
   \/ exists rest, t = (pickers ++ rest)%list /\ List.filter is_picker rest = [])
  /\ (o <> Returned tt ->
      recording f = recording s /\ SetRecording true ∉ t)
  /\ (o = Returned tt ->
      recording f = true
      /\ is_Some (recorderSlides f)
      /\ exists pre,
          t = (pre ++ [RecorderStart Slides; SetRecording true])%list
          /\ (SetRecording true ∉ pre)
          /\ ((RecorderStart Camera ∈ pre)
              <-> recordCamera s = true /\ is_Some (streamCamera f)))
  /\ (resolves 10 rs = true -> o = Returned tt)
  /\ (showAvatar f = showAvatar s /\ pending f = pending s /\ ended f = ended s
      /\ currentCamera f = currentCamera s /\ recordCamera f = recordCamera s)
  /\ ((recorderSlides f = recorderSlides s /\ streamSlides f = streamSlides s)
      \/ is_Some (streamSlides f))
  /\ (recorderCamera f = recorderCamera s \/ is_Some (streamCamera f))
  /\ (is_Some (streamCamera s) -> is_Some (streamCamera f))
  /\ (o = Returned tt -> recordCamera s = true -> is_Some (streamCamera f) ->
      is_Some (recorderCamera f))
  /\ (o = Returned tt ->
      forall sc a l, streamCamera f = Some sc -> getAudioTracks sc = a :: l ->
                     exists sl, streamSlides f = Some sl /\ tid a ∈ track_ids sl).
Proof.
  unfold startRecording, startCameraStream, getFilename.
  destruct (recordCamera s) eqn:Hrc, (streamCamera s) eqn:Hsc,
    (String.eqb (currentCamera s) "none") eqn:Hc, (String.eqb (currentMic s) "none") eqn:Hm.
  all: run_awaits.
  all: intros H; injection H as <- <- <- <-.
  all: split; [first [ left; eexists; reflexivity | right; eexists; split; reflexivity ] |].
  all: split; [first [ intros _; split; [reflexivity | not_in_list] | congruence ] |].
  all: split;
    [first
       [ discriminate
       | intros _; split; [reflexivity|]; split; [eexists; reflexivity|];
         cut_last2; split; [reflexivity|]; split; [not_in_list|];
         first
           [ split; [intros _; split; [reflexivity | cbn; rewrite ?Hsc; eexists; reflexivity]
                    | intros _; in_list]
           | split; [intros Hin; exfalso; revert Hin; not_in_list
                    | cbn; rewrite ?Hsc; intros [Hf [x Hx]]; discriminate] ] ] |].
  all: split; [first [discriminate | reflexivity] |].
  all: split; [repeat split; assumption |].
  all: split; [first [left; split; reflexivity | right; eexists; reflexivity] |].
  all: split; [first [left; reflexivity | right; cbn; rewrite ?Hsc; eexists; reflexivity] |].
  all: split; [first [ intros _; cbn; rewrite ?Hsc; eexists; reflexivity
                     | intros [? ?]; discriminate ] |].
  all: split;
    [first [ discriminate
           | intros _ _ _; eexists; reflexivity
           | intros _ Hf _; discriminate Hf
           | intros _ _ [? Hf]; cbn in Hf; rewrite ?Hsc in Hf; discriminate Hf ] |].
  all: try discriminate.
  all: intros _ sc' a' l' Hsc' Ha'; cbn in Hsc'; rewrite ?Hsc in Hsc'; try discriminate Hsc'.
  all: injection Hsc' as <-.
  all: match goal with
       | H1 : getAudioTracks ?x = _ |- _ =>
           tryif constr_eq H1 Ha' then fail else (rewrite H1 in Ha'; try discriminate Ha')
       end.
  all: injection Ha' as <- <-.
  all: eexists; split; [reflexivity|].
  all: apply addTrack_has.
Qed.




(** ** stopRecording and the stop callbacks *)

Lemma stopRecording_run (s : State) (rs : list Response) :
  stopRecording s rs
  = MkRun (Returned tt)
      (set_pending
         (pending s
            ++ (if recorderCamera s is Some _ then [CbCamera] else [])
            ++ (if recorderSlides s is Some _ then [CbSlides] else []))%list
         (set_recording false s))
      rs
      (SetRecording false
         :: (if recorderCamera s is Some _ then [RecorderStop Camera] else [])
         ++ (if recorderSlides s is Some _ then [RecorderStop Slides] else []))%list.
Proof.
  unfold stopRecording, push_pending. run_unfold.
  destruct (recorderCamera s) eqn:E1; cbn; destruct (recorderSlides s) eqn:E2; cbn;
    rewrite <- ?app_assoc, ?app_nil_r; reflexivity.
Qed.

Lemma elem_of_delete_other {A} (l : list A) (n : nat) (x y : A) :
  x ∈ l -> l !! n = Some y -> x <> y -> x ∈ delete n l.
Proof.
  revert n. induction l as [|a l IH]; intros n Hx Hn Hne.
  - inversion Hx.
  - destruct n as [|n]; cbn in *.
    + injection Hn as ->. apply elem_of_cons in Hx as [->|Hx]; [congruence | exact Hx].
    + apply elem_of_cons in Hx as [->|Hx].
      * apply list_elem_of_here.
      * apply list_elem_of_further. exact (IH n Hx Hn Hne).
Qed.

Lemma closeStream_held (w : Which) (s : State) (i : nat) :
  i ∈ held_ids (stream_of w s) -> i ∈ ended (closeStream w s).
Proof.
  unfold closeStream, held_ids. destruct (stream_of w s) as [st|]; [|inversion 1].
  intros Hi. destruct w; cbn; apply elem_of_union_r, elem_of_list_to_set; exact Hi.
Qed.

Lemma closeStream_frame (w : Which) (s : State) :
  recording (closeStream w s) = recording s
  /\ showAvatar (closeStream w s) = showAvatar s
  /\ pending (closeStream w s) = pending s
  /\ recorderCamera (closeStream w s) = recorderCamera s
  /\ recorderSlides (closeStream w s) = recorderSlides s
  /\ currentCamera (closeStream w s) = currentCamera s
  /\ ended s ⊆ ended (closeStream w s).
Proof.
  unfold closeStream. destruct (stream_of w s); [|by repeat split].
  destruct w; cbn; repeat split; set_solver.
Qed.

Lemma closeStream_other (s : State) :
  streamSlides (closeStream Camera s) = streamSlides s
  /\ streamCamera (closeStream Slides s) = streamCamera s.
Proof.
  unfold closeStream. cbn.
  split; [destruct (streamCamera s) | destruct (streamSlides s)]; reflexivity.
Qed.

(** What the camera recorder's stop callback leaves. *)
Lemma run_callback_camera (s : State) :
  let s' := run_callback CbCamera s in
  recording s' = recording s /\ showAvatar s' = showAvatar s /\ pending s' = pending s
  /\ recorderSlides s' = recorderSlides s /\ streamSlides s' = streamSlides s
  /\ ended s ⊆ ended s'
  /\ recorderCamera s' = None
  /\ (showAvatar s = true -> streamCamera s' = streamCamera s)
  /\ (showAvatar s = false ->
      streamCamera s' = None /\ forall i, i ∈ held_ids (streamCamera s) -> i ∈ ended s').
Proof.
  unfold run_callback. cbn. destruct (showAvatar s) eqn:Hshow; cbn.
  - split_and!; try done.
  - pose proof (closeStream_frame Camera (set_recorderCamera None s))
      as (H1 & H2 & H3 & H4 & H5 & _ & H6).
    pose proof (closeStream_other (set_recorderCamera None s)) as [H7 _].
    split_and!; try assumption; try discriminate; [rewrite H2; exact Hshow|].
    intros _. split.
    + exact (closeStream_unset Camera _).
    + intros i Hi. apply (closeStream_held Camera (set_recorderCamera None s)). exact Hi.
Qed.

(** What the screen recorder's stop callback leaves. *)
Lemma run_callback_slides (s : State) :
  let s' := run_callback CbSlides s in
  recording s' = recording s /\ showAvatar s' = showAvatar s /\ pending s' = pending s
  /\ recorderCamera s' = recorderCamera s /\ streamCamera s' = streamCamera s
  /\ ended s ⊆ ended s'
  /\ recorderSlides s' = None /\ streamSlides s' = None
  /\ forall i, i ∈ held_ids (streamSlides s) -> i ∈ ended s'.
Proof.
  unfold run_callback. cbn.
  pose proof (closeStream_frame Slides s) as (H1 & H2 & H3 & H4 & _ & _ & H6).
  pose proof (closeStream_other s) as [_ H7].
  split_and!; try assumption; try reflexivity.
  - exact (closeStream_unset Slides s).
  - intros i Hi. exact (closeStream_held Slides s i Hi).
Qed.

Lemma tearing_down_stop (s1 : State) :
  is_Some (recorderSlides s1) -> tearing_down s1 (final (stopRecording s1 [])).
Proof.
  intros [rec Hrec]. rewrite stopRecording_run. cbn. rewrite Hrec.
  unfold tearing_down. cbn. split_and!; try reflexivity.
  - left. split; [|reflexivity].
    apply elem_of_app. right. apply elem_of_app. right. apply list_elem_of_here.
  - destruct (recorderCamera s1); [right | left; reflexivity].
    apply elem_of_app. right. apply list_elem_of_here.
  - intros [rc Hrc] _. left. split; [|reflexivity]. rewrite Hrc.
    apply elem_of_app. right. apply list_elem_of_here.
Qed.

Lemma tearing_down_fire (s1 : State) (n : nat) (s : State) :
  tearing_down s1 s -> tearing_down s1 (fire n s).
Proof.
  intros (Hrec & Hav & Hsl & Hrc & Hcam & Hkeep). unfold fire.
  destruct (pending s !! n) as [cb|] eqn:Hn; [|by split_and!].
  set (sp := set_pending (delete n (pending s)) s).
  assert (Hkeep_in : forall x, x ∈ pending s -> x <> cb -> x ∈ pending sp)
    by (intros x Hx Hne; exact (elem_of_delete_other _ n x cb Hx Hn Hne)).
  destruct cb.
  - (* the camera recorder has stopped *)
    pose proof (run_callback_camera sp) as F. cbv zeta in F.
    set (s' := run_callback CbCamera sp) in *. clearbody s'.
    destruct F as (F1 & F2 & F3 & F4 & F5 & F6 & F7 & F8 & F9).
    subst sp. cbn in F1, F2, F3, F4, F5, F6, F8, F9, Hkeep_in.
    unfold tearing_down. split_and!.
    + congruence.
    + congruence.
    + destruct Hsl as [[Hin Heq] | (Hr0 & Hs0 & He0)].
      * left. rewrite F3, F5. split; [|exact Heq]. apply Hkeep_in; [exact Hin | discriminate].
      * right. rewrite F4, F5. split_and!; try assumption.
        intros i Hi. apply F6, He0, Hi.
    + left. exact F7.
    + intros Hsome Hf. right.
      assert (Hs : showAvatar s = false) by congruence.
      destruct (F9 Hs) as [Hnone Hend]. split; [exact Hnone|].
      intros i Hi. destruct (Hcam Hsome Hf) as [[_ Heq] | [_ He]].
      * apply Hend. rewrite Heq. exact Hi.
      * apply F6, He, Hi.
    + intros Ht. rewrite F8 by congruence. exact (Hkeep Ht).
  - (* the screen recorder has stopped *)
    pose proof (run_callback_slides sp) as F. cbv zeta in F.
    set (s' := run_callback CbSlides sp) in *. clearbody s'.
    destruct F as (F1 & F2 & F3 & F4 & F5 & F6 & F7 & F8 & F9).
    subst sp. cbn in F1, F2, F3, F4, F5, F6, F9, Hkeep_in.
    unfold tearing_down. split_and!.
    + congruence.
    + congruence.
    + right. split_and!; try assumption.
      intros i Hi. destruct Hsl as [[_ Heq] | (_ & _ & He)].
      * apply F9. rewrite Heq. exact Hi.
      * apply F6, He, Hi.
    + destruct Hrc as [Hr | Hp]; [left; congruence | right].
      rewrite F3. apply Hkeep_in; [exact Hp | discriminate].
    + intros Hsome Hf. destruct (Hcam Hsome Hf) as [[Hp Heq] | [Heq He]].
      * left. rewrite F3, F5. split; [|exact Heq]. apply Hkeep_in; [exact Hp | discriminate].
      * right. rewrite F5. split; [exact Heq|]. intros i Hi. apply F6, He, Hi.
    + intros Ht. rewrite F5. exact (Hkeep Ht).
Qed.

Lemma tearing_down_fire_all (s1 : State) (order : list nat) (s : State) :
  tearing_down s1 s -> tearing_down s1 (fire_all order s).
Proof.
  revert s. induction order as [|n order IH]; intros s H; [exact H|].
  cbn. apply IH, tearing_down_fire, H.
Qed.

Lemma tearing_down_done (s1 s : State) :
  tearing_down s1 s -> pending s = [] ->
  recording s = false
  /\ recorderCamera s = None /\ recorderSlides s = None /\ streamSlides s = None
  /\ (forall i, i ∈ held_ids (streamSlides s1) -> i ∈ ended s)
  /\ (is_Some (recorderCamera s1) -> showAvatar s1 = false ->
      streamCamera s = None
      /\ forall i, i ∈ held_ids (streamCamera s1) -> i ∈ ended s)
  /\ (showAvatar s1 = true -> streamCamera s = streamCamera s1).
Proof.
  intros (Hrec & Hav & Hsl & Hrc & Hcam & Hkeep) Hp. rewrite Hp in *.
  destruct Hsl as [[Hin _] | (Hr & Hs & He)]; [inversion Hin|].
  destruct Hrc as [Hrc | Hin]; [|inversion Hin].
  split_and!; try assumption.
  intros Hsome Hf.
  destruct (Hcam Hsome Hf) as [[Hin _] | Hdone]; [inversion Hin | exact Hdone].
Qed.


Lemma fire_head (s : State) (cb : Callback) (l : list Callback) :
  pending s = cb :: l -> pending (fire 0 s) = l.
Proof.
  intros Hp. unfold fire. rewrite Hp. cbn.
  destruct cb.
  - pose proof (run_callback_camera (set_pending l s)) as F. cbv zeta in F.
    destruct F as (_ & _ & F & _). exact F.
  - pose proof (run_callback_slides (set_pending l s)) as F. cbv zeta in F.
    destruct F as (_ & _ & F & _). exact F.
Qed.

Lemma fire_all_drains (s : State) :
  pending (fire_all (replicate (length (pending s)) 0) s) = [].
Proof.
  remember (pending s) as l eqn:Hl. revert s Hl.
  induction l as [|cb l IH]; intros s Hl; cbn.
  - symmetry. exact Hl.
  - apply IH. symmetry. apply (fire_head s cb l). symmetry. exact Hl.
Qed.

(** C5, as the code has it. After a [startRecording] that returned,
    [stopRecording] returns with the flag already false while both recorders,
    both streams and every track are still as they were; the engine can call
    back every stop callback; and once it has called them all, in whatever
    order, both recorder references are unset, the screen stream is released
    with all its tracks stopped, among them the audio track it took from the
    camera stream, and the camera stream is released with all its tracks
    stopped if a camera recorder was set (as it is when camera recording is
    enabled and a camera stream is held) and the avatar is not shown; while
    the avatar is shown the camera stream stays. *)
Theorem stopRecording_after_start (s : State) (rs : list Response) (order : list nat) :
  let r1 := startRecording s rs in
  let s1 := final r1 in
  let r2 := stopRecording s1 [] in
  let s2 := final r2 in
  let s3 := fire_all order s2 in
  outcome r1 = Returned tt ->
  (outcome r2 = Returned tt /\ recording s2 = false
   /\ recorderCamera s2 = recorderCamera s1 /\ recorderSlides s2 = recorderSlides s1
   /\ streamCamera s2 = streamCamera s1 /\ streamSlides s2 = streamSlides s1
   /\ ended s2 = ended s1)
  /\ (exists order', pending (fire_all order' s2) = [])
  /\ (recordCamera s = true -> is_Some (streamCamera s1) -> is_Some (recorderCamera s1))
  /\ (pending s3 = [] ->
      recording s3 = false
      /\ recorderCamera s3 = None /\ recorderSlides s3 = None /\ streamSlides s3 = None
      /\ (forall sl t, streamSlides s1 = Some sl -> t ∈ tracks sl -> tid t ∈ ended s3)
      /\ (forall sc a l, streamCamera s1 = Some sc -> getAudioTracks sc = a :: l ->
                         tid a ∈ ended s3)
      /\ (is_Some (recorderCamera s1) -> showAvatar s1 = false ->
          streamCamera s3 = None
          /\ forall sc t, streamCamera s1 = Some sc -> t ∈ tracks sc -> tid t ∈ ended s3)
      /\ (showAvatar s1 = true -> streamCamera s3 = streamCamera s1)).
Proof.
  intros r1 s1 r2 s2 s3 Ho.
  destruct r1 as [o f u t] eqn:E. cbn in Ho, s1. subst o.
  destruct (startRecording_run s rs _ f u t E)
    as (_ & _ & Hret & _ & _ & _ & _ & _ & Hrec & Haudio).
  destruct (Hret eq_refl) as (_ & Hslides & _).
  specialize (Hrec eq_refl). specialize (Haudio eq_refl).
  subst s1. split_and!.
  - subst r2. rewrite stopRecording_run. reflexivity.
  - subst s2 r2. rewrite stopRecording_run. reflexivity.
  - subst s2 r2. rewrite stopRecording_run. reflexivity.
  - subst s2 r2. rewrite stopRecording_run. reflexivity.
  - subst s2 r2. rewrite stopRecording_run. reflexivity.
  - subst s2 r2. rewrite stopRecording_run. reflexivity.
  - subst s2 r2. rewrite stopRecording_run. reflexivity.
  - eexists. apply fire_all_drains.
  - exact Hrec.
  - intros Hp.
    pose proof (tearing_down_stop f Hslides) as Htd.
    apply (tearing_down_fire_all f order) in Htd.
    destruct (tearing_down_done f _ Htd Hp) as (D1 & D2 & D3 & D4 & D5 & D6 & D7).
    assert (Hsl : forall sl t, streamSlides f = Some sl -> tid t ∈ track_ids sl -> tid t ∈ ended s3).
    { intros sl t' Hsl Ht. apply D5. rewrite Hsl. exact Ht. }
    split_and!; try assumption.
    + intros sl t' Hs Ht. apply (Hsl sl t' Hs). unfold track_ids.
      apply list_elem_of_fmap. eauto.
    + intros sc a l Hsc Ha. destruct (Haudio sc a l Hsc Ha) as (sl & Hs & Hin).
      exact (Hsl sl a Hs Hin).
    + intros Hsome Hf. destruct (D6 Hsome Hf) as [Hn He]. split; [exact Hn|].
      intros sc t' Hsc Ht. apply He. rewrite Hsc. cbn. unfold track_ids.
      apply list_elem_of_fmap. eauto.
Qed.

Lemma stopRecording_after_start_witness :
  let s := init "cam-1" "mic-1" {| getMonth := 2; getDate := 5; getHours := 14; getMinutes := 7 |} in
  let rs := [Resolve []; Resolve []; Resolve []; Resolve []; Resolve []; Resolve [];
             Resolve [Video; Audio]; Resolve [Video]; Resolve []; Resolve []] in
  let s1 := final (startRecording s rs) in
  let s2 := final (stopRecording s1 []) in
  let s3 := fire_all [1; 0] s2 in
  outcome (startRecording s rs) = Returned tt
  /\ recording s2 = false /\ is_Some (recorderCamera s2) /\ is_Some (recorderSlides s2)
  /\ pending s3 = []
  /\ recorderCamera s3 = None /\ recorderSlides s3 = None
  /\ streamCamera s3 = None /\ streamSlides s3 = None
  /\ 3 ∈ ended s3 /\ 4 ∈ ended s3 /\ 6 ∈ ended s3.
Proof.
  intros s rs s1 s2 s3.
  assert (Ho : outcome (startRecording s rs) = Returned tt) by reflexivity.
  assert (Hp : pending s3 = []) by reflexivity.
  destruct (stopRecording_after_start s rs [1; 0] Ho)
    as ((_ & Hflag & Hrc & Hrs & _) & _ & Hcam & Hdone).
  destruct (Hdone Hp) as (_ & D2 & D3 & D4 & D5 & _ & D7 & _).
  assert (Hrec : is_Some (recorderCamera s1)).
  { apply Hcam; [reflexivity | eexists; reflexivity]. }
  destruct (D7 Hrec eq_refl) as [D8 D9].
  split; [exact Ho|]. split; [exact Hflag|].
  split; [eexists; reflexivity|]. split; [eexists; reflexivity|].
  split; [exact Hp|]. split; [exact D2|]. split; [exact D3|].
  split; [exact D8|]. split; [exact D4|].
  split; [|split].
  - apply (D9 _ {| tid := 3; tkind := Video |} eq_refl). apply list_elem_of_here.
  - apply (D9 _ {| tid := 4; tkind := Audio |} eq_refl).
    apply list_elem_of_further, list_elem_of_here.
  - apply (D5 _ {| tid := 6; tkind := Video |} eq_refl). apply list_elem_of_here.
Defined.

(** C5 as stated fails: while the avatar is shown, the camera stream outlives
    the recording and its video track is never stopped. *)
Lemma stopRecording_avatar_counterexample :
  ~ (forall s rs order,
        let s1 := final (startRecording s rs) in
        let s3 := fire_all order (final (stopRecording s1 [])) in
        outcome (startRecording s rs) = Returned tt ->
        pending s3 = [] ->
        forall sc t, streamCamera s1 = Some sc -> t ∈ tracks sc -> tid t ∈ ended s3).
Proof.
  intros H.
  set (s := final (toggleAvatar
                     (init "cam-1" "mic-1" {| getMonth := 2; getDate := 5; getHours := 14; getMinutes := 7 |})
                     [Resolve []; Resolve []; Resolve [Video; Audio]])).
  set (rs := [Resolve []; Resolve []; Resolve []; Resolve []; Resolve []; Resolve [];
              Resolve [Video]; Resolve []; Resolve []]).
  specialize (H s rs [0; 0] eq_refl eq_refl _ {| tid := 1; tkind := Video |} eq_refl
                ltac:(apply list_elem_of_here)).
  assert (Hn : bool_decide
                 (1 ∈ ended (fire_all [0; 0] (final (stopRecording (final (startRecording s rs)) []))))
               = false) by (vm_compute; reflexivity).
  apply bool_decide_eq_false in Hn. exact (Hn H).
Qed.

(** ** A recorder and its stream *)

Lemma onUpdated_frame (s : State) :
  recording (onUpdated s) = recording s
  /\ recorderCamera (onUpdated s) = recorderCamera s
  /\ recorderSlides (onUpdated s) = recorderSlides s
  /\ streamCamera (onUpdated s) = streamCamera s
  /\ streamSlides (onUpdated s) = streamSlides s.
Proof.
  unfold onUpdated.
  repeat match goal with |- context [if ?b then _ else _] => destruct b end;
    split_and!; reflexivity.
Qed.










(** * Further properties *)

(** ** closeStream *)

(** X1. [closeStream] on an unset reference does nothing; on a set one it
    unsets it and stops every track the stream had; it touches neither the
    other stream reference nor any recorder or flag, never takes a track out
    of the stopped ones, and closing twice is closing once. *)
Theorem closeStream_release (w : Which) (s : State) :
  (stream_of w s = None -> closeStream w s = s)
  /\ stream_of w (closeStream w s) = None
  /\ (forall i, i ∈ held_ids (stream_of w s) -> i ∈ ended (closeStream w s))
  /\ ended s ⊆ ended (closeStream w s)
  /\ streamSlides (closeStream Camera s) = streamSlides s
  /\ streamCamera (closeStream Slides s) = streamCamera s
  /\ recorderCamera (closeStream w s) = recorderCamera s
  /\ recorderSlides (closeStream w s) = recorderSlides s
  /\ recording (closeStream w s) = recording s
  /\ showAvatar (closeStream w s) = showAvatar s
  /\ closeStream w (closeStream w s) = closeStream w s.
Proof.
  pose proof (closeStream_frame w s) as (F1 & F2 & _ & F4 & F5 & _ & F7).
  pose proof (closeStream_other s) as [O1 O2].
  split_and!; try assumption.
  - intros H. unfold closeStream. rewrite H. reflexivity.
  - apply closeStream_unset.
  - apply closeStream_held.
  - unfold closeStream at 1. rewrite closeStream_unset. reflexivity.
Qed.

Lemma closeStream_release_witness :
  let s := final (toggleAvatar
                    (init "cam-1" "mic-1" {| getMonth := 0; getDate := 1; getHours := 0; getMinutes := 0 |})
                    [Resolve []; Resolve []; Resolve [Video; Audio]]) in
  streamCamera (closeStream Camera s) = None
  /\ 1 ∈ ended (closeStream Camera s) /\ 2 ∈ ended (closeStream Camera s)
  /\ closeStream Slides s = s.
Proof.
  intros s.
  destruct (closeStream_release Camera s) as (_ & Hu & He & _).
  destruct (closeStream_release Slides s) as (Hn & _).
  split; [exact Hu|]. split; [|split].
  - apply He. cbn. apply list_elem_of_here.
  - apply He. cbn. apply list_elem_of_further, list_elem_of_here.
  - apply Hn. reflexivity.
Defined.

(** ** More on getFilename *)

Lemma append_assoc_string (a b c : string) : ((a ++ b) ++ c = a ++ (b ++ c))%string.
Proof.
  induction a as [|x a IH]; [reflexivity|].
  change (String x ((a ++ b) ++ c) = String x (a ++ (b ++ c)))%string.
  f_equal. exact IH.
Qed.

Lemma ascii_digit_inj (x y : nat) :
  x < 10 -> y < 10 -> Ascii.ascii_of_nat (48 + x) = Ascii.ascii_of_nat (48 + y) -> x = y.
Proof.
  intros Hx Hy H. apply (f_equal Ascii.nat_of_ascii) in H.
  rewrite !Ascii.nat_ascii_embedding in H by lia. lia.
Qed.

Lemma two_digits_chars_inj (n m : nat) :
  n < 100 -> m < 100 ->
  Ascii.ascii_of_nat (48 + n / 10) = Ascii.ascii_of_nat (48 + m / 10) ->
  Ascii.ascii_of_nat (48 + n mod 10) = Ascii.ascii_of_nat (48 + m mod 10) ->
  n = m.
Proof.
  intros Hn Hm H1 H2.
  apply ascii_digit_inj in H1;
    [|apply Nat.Div0.div_lt_upper_bound; lia | apply Nat.Div0.div_lt_upper_bound; lia].
  apply ascii_digit_inj in H2; [|apply Nat.mod_upper_bound; lia | apply Nat.mod_upper_bound; lia].
  rewrite (Nat.div_mod_eq n 10), (Nat.div_mod_eq m 10). lia.
Qed.

Lemma stamp_inj (a b c d a' b' c' d' : nat) (tail : string) :
  a < 100 -> b < 100 -> c < 100 -> d < 100 ->
  a' < 100 -> b' < 100 -> c' < 100 -> d' < 100 ->
  (MMDD_HHMM a b c d ++ tail = MMDD_HHMM a' b' c' d' ++ tail)%string ->
  a = a' /\ b = b' /\ c = c' /\ d = d'.
Proof.
  intros Ha Hb Hc Hd Ha' Hb' Hc' Hd' H.
  cbv [MMDD_HHMM two_digits digit String.append] in H.
  injection H as H1 H2 H3 H4 H5 H6 H7 H8.
  split_and!; apply two_digits_chars_inj; assumption.
Qed.

(** X2. The two names [startRecording] suggests never collide: whatever the
    recording name and the clock, [getFilename('camera')] and
    [getFilename('screen')] differ. *)
Theorem getFilename_camera_screen_differ (s : State) :
  getFilename s (Some "camera") <> getFilename s (Some "screen").
Proof.
  unfold getFilename, filename, filter_isTruthy.
  change (omap ?f (?x :: ?l)) with (match f x with Some y => y :: omap f l | None => omap f l end).
  cbv beta iota delta [isTruthy].
  destruct (omap _ _) as [|x l]; cbv [String.concat String.append]; discriminate.
Qed.

(** X3. The stamp in the name tells the month, day, hour and minute apart:
    with the same kind and recording name, two in-range dates that give the
    same file name are the same. *)
Theorem getFilename_date_inj (s s' : State) (media : option string) :
  valid_date (clock s) -> valid_date (clock s') ->
  recordingName s = recordingName s' ->
  getFilename s media = getFilename s' media ->
  clock s = clock s'.
Proof.
  intros Hv Hv' Hn H. unfold getFilename, filename in H.
  rewrite <- Hn in H. rewrite !date_part_format in H by assumption.
  destruct Hv as (V1 & V2 & V3 & V4), Hv' as (V1' & V2' & V3' & V4').
  assert (E : (MMDD_HHMM (getMonth (clock s) + 1) (getDate (clock s))
                 (getHours (clock s)) (getMinutes (clock s)) ++ ".webm"
               = MMDD_HHMM (getMonth (clock s') + 1) (getDate (clock s'))
                   (getHours (clock s')) (getMinutes (clock s')) ++ ".webm")%string).
  { revert H.
    set (st := MMDD_HHMM (getMonth (clock s) + 1) _ _ _).
    set (st' := MMDD_HHMM (getMonth (clock s') + 1) _ _ _).
    assert (Hst : exists c r, st = String c r) by (eexists _, _; reflexivity).
    assert (Hst' : exists c r, st' = String c r) by (eexists _, _; reflexivity).
    destruct Hst as (c & r & Hst), Hst' as (c' & r' & Hst').
    clearbody st st'. subst st st'.
    destruct media as [[|a m]|], (recordingName s) as [|b n];
      cbv [filter_isTruthy omap list_omap isTruthy String.concat]; intros H.
    all: rewrite ?append_assoc_string in H.
    all: repeat first [exact H | apply String.app_inj in H]. }
  apply stamp_inj in E; try lia.
  destruct E as (E1 & E2 & E3 & E4).
  destruct (clock s), (clock s'); cbn in *. f_equal; lia.
Qed.

Lemma getFilename_date_inj_witness :
  let d := {| getMonth := 2; getDate := 5; getHours := 14; getMinutes := 7 |} in
  let s := init "default" "default" d in
  let s' := set_currentMic "none" s in
  valid_date (clock s) /\ getFilename s None = getFilename s' None /\ clock s = clock s'.
Proof.
  intros d s s'.
  assert (Hd : valid_date (clock s)) by (unfold valid_date; simpl; lia).
  assert (Hf : getFilename s None = getFilename s' None) by reflexivity.
  split; [exact Hd|]. split; [exact Hf|].
  exact (getFilename_date_inj s s' None Hd Hd eq_refl Hf).
Defined.

(** ** More on the device list handler *)

Lemma has_device_head (i : MediaDeviceInfo) (l : list MediaDeviceInfo) :
  has_device (deviceId i) (i :: l) = true.
Proof. unfold has_device. cbn. rewrite String.eqb_refl. reflexivity. Qed.

Lemma fallback_settled (old : string) (l : list MediaDeviceInfo) :
  let new := if negb (String.eqb old "none") && negb (has_device old l)
             then first_or_default l else old in
  (if negb (String.eqb new "none") && negb (has_device new l)
   then first_or_default l else new) = new
  /\ (new = "none" \/ new = "default" \/ has_device new l = true).
Proof.
  cbv zeta.
  destruct (String.eqb old "none") eqn:Hn; cbn [negb andb].
  - rewrite Hn. cbn [negb andb]. apply String.eqb_eq in Hn. auto.
  - destruct (has_device old l) eqn:Hd; cbn [negb andb].
    + rewrite Hn, Hd. cbn [negb andb]. auto.
    + destruct l as [|i l]; unfold first_or_default.
      * change (has_device "default" []) with false. cbn [negb andb String.eqb Ascii.eqb Bool.eqb].
        auto.
      * destruct (String.eqb (deviceId i) "") eqn:He.
        -- change (String.eqb "default" "none") with false. cbn [negb andb].
           destruct (has_device "default" (i :: l)) eqn:Hdd; cbn [negb andb]; auto.
        -- rewrite has_device_head, andb_false_r. auto.
Qed.

Lemma onUpdated_fields (s : State) :
  onUpdated s
  = set_currentMic (currentMic (onUpdated s)) (set_currentCamera (currentCamera (onUpdated s)) s).
Proof.
  unfold onUpdated. destruct s as [cam mic ? ? cams mics ? ? ? ? ? ? ? ? ? ?].
  cbn [currentCamera currentMic cameras microphones].
  destruct (String.eqb cam "none"), (has_device cam cams); cbn [negb];
    cbn [currentCamera currentMic cameras microphones set_currentCamera];
    destruct (String.eqb mic "none"), (has_device mic mics); reflexivity.
Qed.

(** X4. After the device list handler each selection is [none], [default]
    or the id of a listed device; the handler changes nothing but the two
    selections; and run again on the same lists it changes nothing more. *)
Theorem onUpdated_settles (s : State) :
  let s' := onUpdated s in
  (currentCamera s' = "none" \/ currentCamera s' = "default"
   \/ has_device (currentCamera s') (cameras s) = true)
  /\ (currentMic s' = "none" \/ currentMic s' = "default"
      \/ has_device (currentMic s') (microphones s) = true)
  /\ s' = set_currentMic (currentMic s') (set_currentCamera (currentCamera s') s)
  /\ onUpdated s' = s'.
Proof.
  cbv zeta.
  pose proof (fallback_settled (currentCamera s) (cameras s)) as [Hc1 Hc2].
  pose proof (fallback_settled (currentMic s) (microphones s)) as [Hm1 Hm2].
  cbv zeta in Hc1, Hc2, Hm1, Hm2.
  rewrite <- onUpdated_currentCamera in Hc1, Hc2.
  rewrite <- onUpdated_currentMic in Hm1, Hm2.
  split_and!; try assumption.
  - apply onUpdated_fields.
  - rewrite (onUpdated_fields (onUpdated s)).
    rewrite (onUpdated_currentCamera (onUpdated s)), (onUpdated_currentMic (onUpdated s)).
    assert (Hcams : cameras (onUpdated s) = cameras s)
      by (rewrite (onUpdated_fields s); reflexivity).
    assert (Hmics : microphones (onUpdated s) = microphones s)
      by (rewrite (onUpdated_fields s); reflexivity).
    rewrite Hcams, Hmics, Hc1, Hm1.
    pose proof (onUpdated_fields s) as E.
    set (c' := currentCamera (onUpdated s)) in *.
    set (m' := currentMic (onUpdated s)) in *.
    clearbody c' m'. rewrite E. reflexivity.
Qed.

(** ** More on startCameraStream and toggleAvatar *)

(** X5. When it has no camera stream and not both selections are [none],
    [startCameraStream] asks [getUserMedia] once, after its two leading
    awaits: for video exactly when a camera is selected and camera recording
    is enabled, for audio exactly when a microphone is selected, each with
    the selected id. A rejected request throws and leaves the session as it
    was; a resolved one is held as the camera stream, with the tracks the
    platform gave, and nothing else changes but the id counter. *)
Theorem startCameraStream_acquire (s : State) (k1 k2 : list TrackKind) (r3 : Response)
    (rs : list Response) :
  streamCamera s = None ->
  ~ (currentCamera s = "none" /\ currentMic s = "none") ->
  let r := startCameraStream s (Resolve k1 :: Resolve k2 :: r3 :: rs) in
  (exists video audio,
      trace r = [EnsurePermissions; NextTick; GetUserMedia video audio]
      /\ (video = None \/ video = Some (currentCamera s))
      /\ (is_Some video <-> currentCamera s <> "none" /\ recordCamera s = true)
      /\ (audio = None \/ audio = Some (currentMic s))
      /\ (is_Some audio <-> currentMic s <> "none"))
  /\ (r3 = Reject -> outcome r = Thrown /\ final r = s)
  /\ (forall kinds, r3 = Resolve kinds ->
      outcome r = Returned tt
      /\ (exists st, streamCamera (final r) = Some st /\ tkind <$> tracks st = kinds)
      /\ final r = set_streamCamera (streamCamera (final r)) (set_nextId (nextId (final r)) s)).
Proof.
  intros Hst Hnot r. subst r.
  unfold startCameraStream. run_unfold. rewrite Hst.
  destruct (String.eqb_spec (currentCamera s) "none") as [Hc|Hc];
    destruct (recordCamera s) eqn:Hrc;
    destruct (String.eqb_spec (currentMic s) "none") as [Hm|Hm];
    try (exfalso; apply Hnot; split; assumption);
    destruct r3 as [kinds|]; cbn.
  all: split;
    [eexists _, _; split; [reflexivity|]; unfold is_Some;
     intuition (try congruence; eauto);
     repeat match goal with H : ex _ |- _ => destruct H end; congruence|].
  all: split; [first [discriminate | intros _; split; reflexivity]|].
  all: intros kinds' Hk; first [discriminate Hk | injection Hk as <-].
  all: split; [reflexivity|]; split; [|reflexivity].
  all: eexists; split; [reflexivity | apply new_tracks_kinds].
Qed.

Lemma startCameraStream_acquire_witness :
  let s := set_recordCamera false
             (init "cam-1" "none" {| getMonth := 0; getDate := 1; getHours := 0; getMinutes := 0 |}) in
  let r := startCameraStream s [Resolve []; Resolve []; Reject] in
  trace r = [EnsurePermissions; NextTick; GetUserMedia None None]
  /\ outcome r = Thrown /\ final r = s.
Proof.
  intros s r.
  destruct (startCameraStream_acquire s [] [] Reject [] eq_refl) as (_ & Hrej & _).
  - intros [H _]. discriminate H.
  - split; [reflexivity|]. exact (Hrej eq_refl).
Defined.

(** X6. Hiding the avatar while recording only clears the flag: the camera
    stream stays held, none of its tracks is stopped, and the platform is
    asked nothing. *)
Theorem toggleAvatar_hide_while_recording (s : State) (rs : list Response) :
  currentCamera s <> "none" -> showAvatar s = true -> recording s = true ->
  let r := toggleAvatar s rs in
  outcome r = Returned tt /\ trace r = [] /\ unused r = rs
  /\ showAvatar (final r) = false
  /\ streamCamera (final r) = streamCamera s
  /\ ended (final r) = ended s
  /\ final r = set_showAvatar false s.
Proof.
  intros Hc Hs Hr r. subst r. apply String.eqb_neq in Hc.
  unfold toggleAvatar. run. split_and!; reflexivity.
Qed.

Lemma toggleAvatar_hide_while_recording_witness :
  let s := set_recording true
             (final (toggleAvatar
                       (init "cam-1" "mic-1" {| getMonth := 0; getDate := 1; getHours := 0; getMinutes := 0 |})
                       [Resolve []; Resolve []; Resolve [Video; Audio]])) in
  showAvatar (final (toggleAvatar s [])) = false
  /\ streamCamera (final (toggleAvatar s [])) = streamCamera s.
Proof.
  intros s.
  destruct (toggleAvatar_hide_while_recording s [] ltac:(discriminate) eq_refl eq_refl)
    as (_ & _ & _ & H1 & H2 & _).
  split; [exact H1 | exact H2].
Defined.

(** X7. A call of [toggleAvatar] that does not get its stream (the request is
    rejected or never answered, or one of the leading awaits is) leaves the
    avatar hidden and the session as it was. *)
Theorem toggleAvatar_no_stream (s : State) (rs : list Response) :
  showAvatar s = false -> streamCamera s = None ->
  let r := toggleAvatar s rs in
  outcome r <> Returned tt ->
  final r = s /\ showAvatar (final r) = false /\ streamCamera (final r) = None.
Proof.
  intros Hs Hst r. subst r. unfold toggleAvatar, startCameraStream.
  run; intros Ho; try congruence; split_and!; assumption || reflexivity.
Qed.

Lemma toggleAvatar_no_stream_witness :
  let s := init "cam-1" "mic-1" {| getMonth := 0; getDate := 1; getHours := 0; getMinutes := 0 |} in
  let r := toggleAvatar s [Resolve []; Resolve []; Reject] in
  outcome r = Thrown /\ final r = s.
Proof.
  intros s r.
  destruct (toggleAvatar_no_stream s [Resolve []; Resolve []; Reject] eq_refl eq_refl) as (H & _).
  - discriminate.
  - split; [reflexivity | exact H].
Defined.

(** ** More on stopRecording *)

(** X8. [stopRecording] awaits nothing and always returns; it clears the
    flag, asks each recorder that is set to stop (first the camera recorder,
    then the screen recorder) and asks nothing of a recorder that is not
    set; by itself it releases no stream, stops no track and unsets no
    recorder. With no recorder set and the flag already false it changes
    nothing at all. *)
Theorem stopRecording_effects (s : State) (rs : list Response) :
  let r := stopRecording s rs in
  outcome r = Returned tt /\ unused r = rs
  /\ recording (final r) = false
  /\ recorderCamera (final r) = recorderCamera s
  /\ recorderSlides (final r) = recorderSlides s
  /\ streamCamera (final r) = streamCamera s
  /\ streamSlides (final r) = streamSlides s
  /\ ended (final r) = ended s
  /\ ((RecorderStop Camera ∈ trace r) <-> is_Some (recorderCamera s))
  /\ ((RecorderStop Slides ∈ trace r) <-> is_Some (recorderSlides s))
  /\ (forall w n, trace r !! n = Some (RecorderStop w) ->
      forall m, trace r !! m = Some (RecorderStop w) -> n = m)
  /\ (recorderCamera s = None -> recorderSlides s = None ->
      pending (final r) = pending s /\ trace r = [SetRecording false]
      /\ (recording s = false -> final r = s)).
Proof.
  cbv zeta. rewrite stopRecording_run. cbn.
  split_and!; try reflexivity.
  - destruct (recorderCamera s), (recorderSlides s); cbn;
      (split;
       [ intros Hin; first [eexists; reflexivity | exfalso; revert Hin; not_in_list]
       | intros [x Hx]; first [discriminate Hx | solve [in_list]] ]).
  - destruct (recorderCamera s), (recorderSlides s); cbn;
      (split;
       [ intros Hin; first [eexists; reflexivity | exfalso; revert Hin; not_in_list]
       | intros [x Hx]; first [discriminate Hx | solve [in_list]] ]).
  - intros w n Hn m Hm.
    destruct (recorderCamera s), (recorderSlides s); cbn in Hn, Hm;
      destruct w;
      repeat (destruct n as [|n]; try discriminate Hn);
      repeat (destruct m as [|m]; try discriminate Hm); reflexivity.
  - intros Hc Hsl. rewrite Hc, Hsl. cbn. rewrite app_nil_r.
    split_and!; try reflexivity.
    intros Hr. destruct s; cbn in *. subst. reflexivity.
Qed.

Lemma stopRecording_effects_witness :
  let s := init "cam-1" "mic-1" {| getMonth := 0; getDate := 1; getHours := 0; getMinutes := 0 |} in
  final (stopRecording s []) = s /\ trace (stopRecording s []) = [SetRecording false].
Proof.
  intros s.
  destruct (stopRecording_effects s []) as (_ & _ & _ & _ & _ & _ & _ & _ & _ & _ & _ & H).
  destruct (H eq_refl eq_refl) as (_ & Ht & Hs).
  split; [exact (Hs eq_refl) | exact Ht].
Defined.

(** ** The unload guard *)

(** X9. The [beforeunload] listener asks for confirmation exactly when a
    recording is in progress, and cancels the unload exactly when, in
    addition, the user does not confirm; otherwise the event is left as it
    came. As [stopRecording] clears the flag before the recorders have
    flushed, the guard is off from the return of [stopRecording] on, stop
    callbacks pending or not; and it is off after a [startRecording] that did
    not return, begun while not recording. *)
Theorem beforeunload_guard (s : State) (leave : bool) (event : UnloadEvent) :
  ((beforeunload s leave event).2 = recording s)
  /\ ((beforeunload s leave event).1
      = if recording s && negb leave
        then {| defaultPrevented := true; returnValue := Some "" |}
        else event)
  /\ (forall rs, beforeunload (final (stopRecording s rs)) leave event = (event, false))
  /\ (forall rs, recording s = false -> outcome (startRecording s rs) <> Returned tt ->
      beforeunload (final (startRecording s rs)) leave event = (event, false)).
Proof.
  split_and!.
  - unfold beforeunload. destruct (recording s), leave; reflexivity.
  - unfold beforeunload. destruct (recording s), leave; reflexivity.
  - intros rs. rewrite stopRecording_run. reflexivity.
  - intros rs Hr Ho.
    destruct (startRecording s rs) as [o f u t] eqn:E.
    destruct (startRecording_run s rs o f u t E) as (_ & H2 & _).
    cbn in *. destruct (H2 Ho) as [Hrec _].
    unfold beforeunload. rewrite Hrec, Hr. reflexivity.
Qed.

Lemma beforeunload_guard_witness :
  let s := init "cam-1" "mic-1" {| getMonth := 0; getDate := 1; getHours := 0; getMinutes := 0 |} in
  let rs := [Resolve []; Resolve []; Resolve []; Resolve []; Resolve []; Resolve [];
             Resolve [Video; Audio]; Resolve [Video]; Resolve []; Reject] in
  let event := {| defaultPrevented := false; returnValue := None |} in
  outcome (startRecording s rs) = Thrown
  /\ is_Some (recorderCamera (final (startRecording s rs)))
  /\ beforeunload (final (startRecording s rs)) false event = (event, false).
Proof.
  intros s rs event.
  destruct (beforeunload_guard s false event) as (_ & _ & _ & H).
  split; [reflexivity|]. split; [eexists; reflexivity|].
  apply H; [reflexivity | discriminate].
Defined.

(** ** More on startRecording *)

(** A second symbolic run of [startRecording]: what its failures leave
    behind, and what the recorders and the screen stream of a run that
    returned are made of. *)
Lemma startRecording_run_more (s : State) (rs : list Response) o f u t :
  startRecording s rs = MkRun o f u t ->
  (List.filter (fun e => negb (is_picker e)) t = [] ->
   o <> Returned tt /\ forall n, set_nextId n f = set_nextId n s)
  /\ (o = Thrown -> last t = Some GetDisplayMedia ->
      recorderCamera f = recorderCamera s /\ recorderSlides f = recorderSlides s
      /\ streamSlides f = streamSlides s /\ recording f = recording s
      /\ ended f = ended s
      /\ (String.eqb (currentCamera s) "none" && String.eqb (currentMic s) "none" = false ->
          is_Some (streamCamera f)))
  /\ (o <> Returned tt -> RecorderStart Camera ∈ t ->
      is_Some (recorderCamera f) /\ is_Some (streamCamera f) /\ is_Some (streamSlides f)
      /\ recording f = recording s /\ recorderSlides f = recorderSlides s)
  /\ (o = Returned tt ->
      exists sl r,
        streamSlides f = Some sl /\ recorderSlides f = Some r
        /\ r_stream r = sid sl
        /\ suggestedName (r_file r) = getFilename s (Some "screen")
        /\ (RecorderStart Camera ∈ t ->
            exists sc rc,
              streamCamera f = Some sc /\ recorderCamera f = Some rc
              /\ r_stream rc = sid sc
              /\ suggestedName (r_file rc) = getFilename s (Some "camera")
              /\ fid (r_file rc) <> fid (r_file r)))
  /\ (o = Returned tt ->
      (forall sc, streamCamera f = Some sc -> getAudioTracks sc = []) ->
      exists sl kinds,
        streamSlides f = Some sl /\ tkind <$> tracks sl = kinds /\ Resolve kinds ∈ rs).
Proof.
  unfold startRecording, startCameraStream, getFilename.
  destruct (recordCamera s) eqn:Hrc, (streamCamera s) eqn:Hsc,
    (String.eqb (currentCamera s) "none") eqn:Hc, (String.eqb (currentMic s) "none") eqn:Hm.
  all: run_awaits.
  all: intros H; injection H as <- <- <- <-.
  all: split;
    [first [ discriminate
           | intros _; split; [discriminate | intros n; reflexivity] ] |].
  all: split;
    [first [ discriminate
           | intros _ Hl; discriminate Hl
           | intros _ _; split_and!; try reflexivity;
             first [discriminate | intros _; cbn; rewrite ?Hsc; eexists; reflexivity] ] |].
  all: split;
    [first [ intros Hn; exfalso; apply Hn; reflexivity
           | intros _ Hin; exfalso; revert Hin; not_in_list
           | intros _ _; split_and!; try reflexivity; cbn; rewrite ?Hsc; eexists; reflexivity ] |].
  all: split;
    [first [ discriminate
           | intros _; eexists _, _; split_and!; try reflexivity;
             first [ intros Hin; exfalso; revert Hin; not_in_list
                   | intros _; eexists _, _; cbn; rewrite ?Hsc; split_and!; try reflexivity;
                     cbn; lia ] ] |].
  all: first [ discriminate | intros _ Hno ].
  all: cbn in Hno; rewrite ?Hsc in Hno.
  all: try (specialize (Hno _ eq_refl); congruence).
  all: eexists _, _; split; [reflexivity|]; split; [apply new_tracks_kinds | in_list].
Qed.

(** X10. If a save-file dialog of [startRecording] is rejected or never
    answered (the first, or with camera recording enabled the second), the
    run does not return, nothing but save dialogs was asked of the platform
    (no permission, no stream), and the session is as it was up to the
    counter of fresh ids: same streams, recorders, flags and stopped
    tracks. *)
Theorem startRecording_cancelled (s : State) (rs : list Response) :
  let r := startRecording s rs in
  resolves (if recordCamera s then 2 else 1) rs = false ->
  outcome r <> Returned tt
  /\ List.filter (fun e => negb (is_picker e)) (trace r) = []
  /\ (forall n, set_nextId n (final r) = set_nextId n s)
  /\ streamCamera (final r) = streamCamera s /\ streamSlides (final r) = streamSlides s
  /\ recorderCamera (final r) = recorderCamera s /\ recorderSlides (final r) = recorderSlides s
  /\ recording (final r) = recording s /\ ended (final r) = ended s.
Proof.
  intros r Hres. subst r.
  assert (Hp : List.filter (fun e => negb (is_picker e)) (trace (startRecording s rs)) = []).
  { revert Hres. unfold startRecording. run_unfold.
    destruct (recordCamera s); cbn;
      destruct rs as [|[k1|] [|[k2|] rs]]; cbn; try discriminate; reflexivity. }
  destruct (startRecording s rs) as [o f u t] eqn:E.
  destruct (startRecording_run_more s rs o f u t E) as (HA & _).
  cbn in *. destruct (HA Hp) as [Ho Heq].
  split_and!; try assumption.
  - exact (f_equal streamCamera (Heq 0)).
  - exact (f_equal streamSlides (Heq 0)).
  - exact (f_equal recorderCamera (Heq 0)).
  - exact (f_equal recorderSlides (Heq 0)).
  - exact (f_equal recording (Heq 0)).
  - exact (f_equal ended (Heq 0)).
Qed.

Lemma startRecording_cancelled_witness :
  let s := init "cam-1" "mic-1" {| getMonth := 2; getDate := 5; getHours := 14; getMinutes := 7 |} in
  let r := startRecording s [Resolve []; Reject] in
  outcome r = Thrown
  /\ trace r = [ShowSaveFilePicker "camera-0305-1407.webm"; ShowSaveFilePicker "screen-0305-1407.webm"]
  /\ streamCamera (final r) = None /\ recording (final r) = false.
Proof.
  intros s r.
  destruct (startRecording_cancelled s [Resolve []; Reject] eq_refl)
    as (_ & _ & _ & Hc & _ & _ & _ & Hr & _).
  split; [reflexivity|]. split; [reflexivity|]. split; [exact Hc | exact Hr].
Defined.

(** X11. When the screen-capture request of [startRecording] is rejected,
    the run throws with no recorder created, the screen stream reference and
    the recording flag as they were and no track stopped; the camera stream
    that was found or acquired on the way stays held (there is one unless
    both selections are [none]). *)
Theorem startRecording_display_rejected (s : State) (rs : list Response) :
  let r := startRecording s rs in
  outcome r = Thrown -> last (trace r) = Some GetDisplayMedia ->
  recorderCamera (final r) = recorderCamera s /\ recorderSlides (final r) = recorderSlides s
  /\ streamSlides (final r) = streamSlides s /\ recording (final r) = recording s
  /\ ended (final r) = ended s
  /\ (~ (currentCamera s = "none" /\ currentMic s = "none") -> is_Some (streamCamera (final r))).
Proof.
  intros r Ho Hl. subst r.
  destruct (startRecording s rs) as [o f u t] eqn:E.
  destruct (startRecording_run_more s rs o f u t E) as (_ & HB & _).
  cbn in *. destruct (HB Ho Hl) as (H1 & H2 & H3 & H4 & H5 & H6).
  split_and!; try assumption.
  intros Hnot. apply H6.
  destruct (String.eqb_spec (currentCamera s) "none") as [Hc|Hc]; [|reflexivity].
  destruct (String.eqb_spec (currentMic s) "none") as [Hm|Hm]; [|reflexivity].
  exfalso. apply Hnot. split; assumption.
Qed.

Lemma startRecording_display_rejected_witness :
  let s := init "cam-1" "mic-1" {| getMonth := 2; getDate := 5; getHours := 14; getMinutes := 7 |} in
  let r := startRecording s [Resolve []; Resolve []; Resolve []; Resolve []; Resolve [];
                             Resolve []; Resolve [Video; Audio]; Reject] in
  outcome r = Thrown /\ recording (final r) = false
  /\ recorderCamera (final r) = None /\ is_Some (streamCamera (final r))
  /\ ended (final r) = ∅.
Proof.
  intros s r.
  destruct (startRecording_display_rejected s
              [Resolve []; Resolve []; Resolve []; Resolve []; Resolve [];
               Resolve []; Resolve [Video; Audio]; Reject] eq_refl eq_refl)
    as (H1 & _ & _ & H4 & H5 & H6).
  split; [reflexivity|]. split; [exact H4|]. split; [exact H1|].
  split; [|exact H5]. apply H6. intros [H _]. discriminate H.
Defined.



(** X13. After a [startRecording] that returned, the screen stream carries
    the first audio track of the held camera stream if that stream has one;
    if no camera stream is held or it has no audio track, the screen stream
    has just the tracks the platform gave for the screen capture. *)
Theorem startRecording_screen_audio (s : State) (rs : list Response) :
  let r := startRecording s rs in
  outcome r = Returned tt ->
  (forall sc a l, streamCamera (final r) = Some sc -> getAudioTracks sc = a :: l ->
     exists sl, streamSlides (final r) = Some sl /\ tid a ∈ track_ids sl)
  /\ ((forall sc, streamCamera (final r) = Some sc -> getAudioTracks sc = []) ->
      exists sl kinds,
        streamSlides (final r) = Some sl /\ tkind <$> tracks sl = kinds
        /\ Resolve kinds ∈ rs).
Proof.
  intros r Ho. subst r.
  destruct (startRecording s rs) as [o f u t] eqn:E.
  destruct (startRecording_run s rs o f u t E) as (_ & _ & _ & _ & _ & _ & _ & _ & _ & HA).
  destruct (startRecording_run_more s rs o f u t E) as (_ & _ & _ & _ & HE).
  cbn in *. split; [exact (HA Ho) | exact (HE Ho)].
Qed.

Lemma startRecording_screen_audio_witness :
  let s := init "cam-1" "mic-1" {| getMonth := 2; getDate := 5; getHours := 14; getMinutes := 7 |} in
  let rs := [Resolve []; Resolve []; Resolve []; Resolve []; Resolve []; Resolve [];
             Resolve [Video; Audio]; Resolve [Video]; Resolve []; Resolve []] in
  let r := startRecording s rs in
  exists sl, streamSlides (final r) = Some sl /\ 4 ∈ track_ids sl.
Proof.
  intros s rs r.
  destruct (startRecording_screen_audio s rs eq_refl) as [H _].
  exact (H _ {| tid := 4; tkind := Audio |} [] eq_refl eq_refl).
Defined.

(** X14. If [startRecording] does not return although it has started the
    camera recorder (the writable stream of the screen file is rejected or
    never comes), the camera recorder stays set and both streams stay held,
    while the recording flag and the screen recorder reference are as they
    were. *)
Theorem startRecording_camera_left_running (s : State) (rs : list Response) :
  let r := startRecording s rs in
  outcome r <> Returned tt -> RecorderStart Camera ∈ trace r ->
  is_Some (recorderCamera (final r)) /\ is_Some (streamCamera (final r))
  /\ is_Some (streamSlides (final r))
  /\ recording (final r) = recording s /\ recorderSlides (final r) = recorderSlides s.
Proof.
  intros r Ho Hin. subst r.
  destruct (startRecording s rs) as [o f u t] eqn:E.
  destruct (startRecording_run_more s rs o f u t E) as (_ & _ & HC & _).
  cbn in *. exact (HC Ho Hin).
Qed.

Lemma startRecording_camera_left_running_witness :
  let s := init "cam-1" "mic-1" {| getMonth := 2; getDate := 5; getHours := 14; getMinutes := 7 |} in
  let rs := [Resolve []; Resolve []; Resolve []; Resolve []; Resolve []; Resolve [];
             Resolve [Video; Audio]; Resolve [Video]; Resolve []; Reject] in
  let r := startRecording s rs in
  outcome r = Thrown /\ is_Some (recorderCamera (final r))
  /\ recording (final r) = false /\ recorderSlides (final r) = None.
Proof.
  intros s rs r.
  destruct (startRecording_camera_left_running s rs) as (H1 & _ & _ & H4 & H5).
  - discriminate.
  - vm_compute. in_list.
  - split; [reflexivity|]. split; [exact H1|]. split; [exact H4 | exact H5].
Defined.

(** ** How the operations compose *)



Lemma startCameraStream_acquired (s : State) (rs : list Response) :
  streamCamera s = None -> currentCamera s <> "none" -> resolves 3 rs = true ->
  exists st, streamCamera (final (startCameraStream s rs)) = Some st
             /\ sid st = nextId s
             /\ ended (final (startCameraStream s rs)) = ended s
             /\ currentCamera (final (startCameraStream s rs)) = currentCamera s.
Proof.
  intros Hst Hc. apply String.eqb_neq in Hc. unfold startCameraStream.
  run; try discriminate; intros _; eexists; split_and!; reflexivity.
Qed.

Lemma startCameraStream_currentCamera (s : State) (rs : list Response) :
  currentCamera (final (startCameraStream s rs)) = currentCamera s.
Proof. unfold startCameraStream. run; reflexivity. Qed.

(** X16. A device-list update in which the selected camera is gone (the
    first listed camera having a proper id) moves the selection to the first
    listed camera. While not recording with a camera stream held, the held
    stream is released, its tracks stopped, and a new stream is acquired for
    the new selection once the awaits resolve. While recording, streams and
    recorders are left as they are. *)
Theorem devices_updated_camera_gone (s : State) (d : MediaDeviceInfo)
    (l mics : list MediaDeviceInfo) (rs : list Response) :
  let s' := step s (DevicesUpdated (d :: l) mics rs) in
  currentCamera s <> "none" ->
  (forall i, i ∈ d :: l -> deviceId i <> currentCamera s) ->
  deviceId d <> "" -> deviceId d <> "none" ->
  currentCamera s' = deviceId d
  /\ (recording s = true ->
      streamCamera s' = streamCamera s /\ streamSlides s' = streamSlides s
      /\ recorderCamera s' = recorderCamera s /\ recorderSlides s' = recorderSlides s)
  /\ (recording s = false -> resolves 3 rs = true ->
      forall st, streamCamera s = Some st ->
      (forall i, i ∈ track_ids st -> i ∈ ended s')
      /\ exists st', streamCamera s' = Some st' /\ sid st' = nextId s).
Proof.
  intros s' Hc Habs Hid Hnone. subst s'. cbn [step].
  set (s0 := set_microphones mics (set_cameras (d :: l) s)).
  assert (Hcam : currentCamera (onUpdated s0) = deviceId d).
  { rewrite onUpdated_currentCamera. subst s0.
    cbn [currentCamera cameras set_microphones set_cameras].
    apply String.eqb_neq in Hc. rewrite Hc, (has_device_absent _ _ Habs). cbn.
    apply String.eqb_neq in Hid. rewrite Hid. reflexivity. }
  destruct (onUpdated_frame s0) as (F1 & F2 & F3 & F4 & F5).
  change (recording s0) with (recording s) in F1.
  change (recorderCamera s0) with (recorderCamera s) in F2.
  change (recorderSlides s0) with (recorderSlides s) in F3.
  change (streamCamera s0) with (streamCamera s) in F4.
  change (streamSlides s0) with (streamSlides s) in F5.
  assert (Hne : String.eqb (currentCamera (onUpdated s0)) (currentCamera s) = false).
  { rewrite Hcam. apply String.eqb_neq. apply Habs, list_elem_of_here. }
  unfold camera_changed. rewrite Hne, Hcam. split_and!.
  - destruct (recording s) eqn:Hr.
    + rewrite (watch_recording _ _ rs Hnone); [exact Hcam | congruence].
    + destruct (streamCamera s) as [st|] eqn:Hst.
      * rewrite (watch_restart _ _ rs st Hnone); [| congruence | congruence].
        pose proof (closeStream_frame Camera (onUpdated s0)) as (_ & _ & _ & _ & _ & C6 & _).
        rewrite startCameraStream_currentCamera, C6. exact Hcam.
      * rewrite (watch_no_stream _ _ rs Hnone); [exact Hcam | congruence | congruence].
  - intros Hr. rewrite (watch_recording _ _ rs Hnone) by (congruence). cbn.
    rewrite F2, F3, F4, F5. split_and!; reflexivity.
  - intros Hr Hres st Hst.
    rewrite (watch_restart _ _ rs st Hnone); [| congruence | congruence].
    pose proof (closeStream_frame Camera (onUpdated s0)) as (_ & _ & _ & _ & _ & C6 & _).
    assert (Hcl : streamCamera (closeStream Camera (onUpdated s0)) = None)
      by exact (closeStream_unset Camera _).
    assert (Hcc : currentCamera (closeStream Camera (onUpdated s0)) <> "none")
      by (rewrite C6, Hcam; exact Hnone).
    destruct (startCameraStream_acquired _ rs Hcl Hcc Hres) as (st' & A1 & A2 & A3 & _).
    split.
    + intros i Hi. rewrite A3. apply (closeStream_held Camera (onUpdated s0)).
      cbn [stream_of]. rewrite F4, Hst. exact Hi.
    + exists st'. split; [exact A1|]. rewrite A2.
      unfold closeStream. cbn [stream_of]. rewrite F4, Hst.
      pose proof (onUpdated_fields s0) as E. rewrite E. reflexivity.
Qed.

Lemma devices_updated_camera_gone_witness :
  let s := final (toggleAvatar
                    (init "cam-1" "mic-1" {| getMonth := 0; getDate := 1; getHours := 0; getMinutes := 0 |})
                    [Resolve []; Resolve []; Resolve [Video; Audio]]) in
  let d := {| deviceId := "cam-2"; label := "USB camera" |} in
  let s' := step s (DevicesUpdated [d] [] [Resolve []; Resolve []; Resolve [Video]]) in
  currentCamera s' = "cam-2" /\ 1 ∈ ended s'
  /\ exists st', streamCamera s' = Some st' /\ sid st' = 3.
Proof.
  intros s d s'.
  destruct (devices_updated_camera_gone s d [] [] [Resolve []; Resolve []; Resolve [Video]])
    as (H1 & _ & H3).
  - discriminate.
  - intros i Hi. apply list_elem_of_singleton in Hi. subst i. discriminate.
  - discriminate.
  - discriminate.
  - destruct (H3 eq_refl eq_refl _ eq_refl) as [He Hs].
    split; [exact H1|]. split; [|exact Hs].
    apply He. cbn. apply list_elem_of_here.
Defined.

(** X17. The engine calling back at a position where nothing is pending
    changes nothing; calling back a pending stop callback takes exactly that
    one off the pending ones, so that each is called at most once. A stop
    callback never changes the two flags, never sets a recorder or a stream,
    and never takes a track out of the stopped ones. *)
Theorem fire_consumes (s : State) (n : nat) :
  (pending s !! n = None -> fire n s = s)
  /\ (is_Some (pending s !! n) ->
      pending (fire n s) = delete n (pending s)
      /\ S (length (pending (fire n s))) = length (pending s))
  /\ recording (fire n s) = recording s
  /\ showAvatar (fire n s) = showAvatar s
  /\ (is_Some (recorderCamera (fire n s)) -> is_Some (recorderCamera s))
  /\ (is_Some (recorderSlides (fire n s)) -> is_Some (recorderSlides s))
  /\ (is_Some (streamCamera (fire n s)) -> is_Some (streamCamera s))
  /\ (is_Some (streamSlides (fire n s)) -> is_Some (streamSlides s))
  /\ ended s ⊆ ended (fire n s).
Proof.
  unfold fire. destruct (pending s !! n) as [cb|] eqn:Hn.
  - assert (Hlen : S (length (delete n (pending s))) = length (pending s)).
    { rewrite length_delete by (rewrite Hn; eexists; reflexivity).
      apply lookup_lt_Some in Hn. lia. }
    destruct cb.
    + pose proof (run_callback_camera (set_pending (delete n (pending s)) s)) as F.
      cbv zeta in F.
      set (s' := run_callback CbCamera (set_pending (delete n (pending s)) s)) in *.
      clearbody s'.
      destruct F as (F1 & F2 & F3 & F4 & F5 & F6 & F7 & F8 & F9).
      cbn in F1, F2, F3, F4, F5, F6, F8, F9.
      split_and!; try assumption; try discriminate.
      * intros _. rewrite F3. split; [reflexivity | exact Hlen].
      * rewrite F7. intros [? H]. discriminate H.
      * rewrite F4. auto.
      * destruct (showAvatar s) eqn:Hs.
        -- rewrite (F8 eq_refl). auto.
        -- destruct (F9 eq_refl) as [F _]. rewrite F. intros [? H]. discriminate H.
      * rewrite F5. auto.
    + pose proof (run_callback_slides (set_pending (delete n (pending s)) s)) as F.
      cbv zeta in F.
      set (s' := run_callback CbSlides (set_pending (delete n (pending s)) s)) in *.
      clearbody s'.
      destruct F as (F1 & F2 & F3 & F4 & F5 & F6 & F7 & F8 & F9).
      cbn in F1, F2, F3, F4, F5, F6, F9.
      split_and!; try assumption; try discriminate.
      * intros _. rewrite F3. split; [reflexivity | exact Hlen].
      * rewrite F4. auto.
      * rewrite F7. intros [? H]. discriminate H.
      * rewrite F5. auto.
      * rewrite F8. intros [? H]. discriminate H.
  - split_and!; try reflexivity; auto.
    intros [? H]. discriminate H.
Qed.

Lemma fire_consumes_witness :
  let s := set_pending [CbSlides; CbCamera]
             (init "cam-1" "mic-1" {| getMonth := 0; getDate := 1; getHours := 0; getMinutes := 0 |}) in
  fire 2 s = s /\ pending (fire 0 s) = [CbCamera].
Proof.
  intros s.
  destruct (fire_consumes s 2) as (H2 & _).
  destruct (fire_consumes s 0) as (_ & H0 & _).
  split; [exact (H2 eq_refl)|].
  destruct H0 as [H0 _]; [eexists; reflexivity | exact H0].
Defined.

(** X18. Once the camera selection has been [none], selecting a camera
    again does not bring the camera stream back: the stream released by the
    change to [none] stays released, recording or not, and the avatar flag,
    which neither change touches, can stay set with no stream behind it. *)
Theorem select_none_and_back (s : State) (c : string) (rs1 rs2 : list Response) :
  let s1 := step s (SelectCamera "none" rs1) in
  let s2 := step s1 (SelectCamera c rs2) in
  currentCamera s <> "none" -> c <> "none" ->
  streamCamera s1 = None
  /\ (forall i, i ∈ held_ids (streamCamera s) -> i ∈ ended s1)
  /\ currentCamera s2 = c
  /\ streamCamera s2 = None
  /\ ended s2 = ended s1
  /\ showAvatar s2 = showAvatar s
  /\ recording s2 = recording s
  /\ recorderCamera s2 = recorderCamera s.
Proof.
  intros s1 s2 Hc Hcn.
  assert (E1 : s1 = closeStream Camera (set_currentCamera "none" s)).
  { subst s1. cbn [step]. unfold camera_changed. cbn [currentCamera set_currentCamera].
    assert (H : String.eqb "none" (currentCamera s) = false)
      by (apply String.eqb_neq; congruence).
    rewrite H, watch_none. reflexivity. }
  subst s2. clearbody s1. subst s1.
  set (s1 := closeStream Camera (set_currentCamera "none" s)).
  pose proof (closeStream_frame Camera (set_currentCamera "none" s))
    as (C1 & C2 & _ & C4 & _ & C6 & _).
  fold s1 in C1, C2, C4, C6.
  change (recording (set_currentCamera "none" s)) with (recording s) in C1.
  change (showAvatar (set_currentCamera "none" s)) with (showAvatar s) in C2.
  change (recorderCamera (set_currentCamera "none" s)) with (recorderCamera s) in C4.
  change (currentCamera (set_currentCamera "none" s)) with "none" in C6.
  assert (Hs1 : streamCamera s1 = None) by exact (closeStream_unset Camera _).
  assert (He : forall i, i ∈ held_ids (streamCamera s) -> i ∈ ended s1)
    by (intros i Hi; apply (closeStream_held Camera (set_currentCamera "none" s)); exact Hi).
  assert (E2 : step s1 (SelectCamera c rs2) = set_currentCamera c s1).
  { cbn [step]. unfold camera_changed. cbn [currentCamera set_currentCamera].
    rewrite C6.
    assert (H : String.eqb c "none" = false) by (apply String.eqb_neq; exact Hcn).
    rewrite H.
    destruct (recording s1) eqn:Hr.
    - rewrite (watch_recording _ c rs2 Hcn); [reflexivity | exact Hr].
    - rewrite (watch_no_stream _ c rs2 Hcn); [reflexivity | exact Hr | exact Hs1]. }
  rewrite E2. clearbody s1.
  cbn [streamCamera currentCamera ended showAvatar recording recorderCamera set_currentCamera].
  split_and!; try assumption; try reflexivity.
Qed.

Lemma select_none_and_back_witness :
  let s := final (toggleAvatar
                    (init "cam-1" "mic-1" {| getMonth := 0; getDate := 1; getHours := 0; getMinutes := 0 |})
                    [Resolve []; Resolve []; Resolve [Video; Audio]]) in
  let s2 := step (step s (SelectCamera "none" [])) (SelectCamera "cam-1" [Resolve []; Resolve []; Resolve [Video]]) in
  showAvatar s2 = true /\ streamCamera s2 = None /\ currentCamera s2 = "cam-1".
Proof.
  intros s s2.
  destruct (select_none_and_back s "cam-1" [] [Resolve []; Resolve []; Resolve [Video]])
    as (_ & _ & H3 & H4 & _ & H6 & _); try discriminate.
  split; [exact H6|]. split; [exact H4 | exact H3].
Defined.

(** ** download *)

Lemma filter_other_fresh (a : nat) (l : list nat) :
  (forall n, n ∈ l -> n < a) -> List.filter (fun m => negb (Nat.eqb m a)) l = l.
Proof.
  induction l as [|x l IH]; intros H; [reflexivity|]. cbn.
  assert (Hx : Nat.eqb x a = false).
  { apply Nat.eqb_neq. specialize (H x (list_elem_of_here _ _)). lia. }
  rewrite Hx. cbn. f_equal. apply IH. intros n Hn. apply H, list_elem_of_further, Hn.
Qed.

Lemma filter_other_last (a : nat) (l : list nat) :
  (forall n, n ∈ l -> n < a) ->
  List.filter (fun m => negb (Nat.eqb m a)) (l ++ [a]) = l.
Proof.
  intros H. rewrite List.filter_app, (filter_other_fresh a l H). cbn.
  rewrite Nat.eqb_refl. cbn. apply app_nil_r.
Qed.

(** X19. [download] never throws in a well-formed document and leaves the
    body as it found it: the anchor it creates is clicked exactly once, while
    it is in the body, with [href] the url and [download] the name as its
    only attributes, and is taken out again; no element that existed before
    is changed. *)
Theorem download_click (name url : string) (d : Document) :
  document_ok d ->
  exists d',
    download name url d = Some d'
    /\ body d' = body d
    /\ clicks d'
       = (clicks d
            ++ [(Some {| tagName := "a";
                         attributes := <["download" := name]> (<["href" := url]> ∅) |},
                 true)])%list
    /\ (forall n, n < nextNode d -> elements d' !! n = elements d !! n).
Proof.
  intros Hok. unfold download, createElement, setAttribute, appendChild, click, removeChild.
  cbn.
  rewrite (filter_other_fresh (nextNode d) (body d) Hok).
  assert (Hin : nextNode d ∈ (body d ++ [nextNode d])%list)
    by (apply elem_of_app; right; apply list_elem_of_here).
  rewrite (bool_decide_eq_true_2 _ Hin). cbn.
  eexists. split; [reflexivity|]. cbn.
  rewrite (filter_other_last (nextNode d) (body d) Hok).
  split; [reflexivity|]. split.
  - rewrite !alter_insert_eq, lookup_insert_eq. reflexivity.
  - intros n Hn. rewrite !alter_insert_eq, lookup_insert_ne by lia. reflexivity.
Qed.

Lemma download_click_witness :
  let d := {| elements := {[ 0 := {| tagName := "div"; attributes := ∅ |} ]};
              body := [0]; nextNode := 1; clicks := [] |} in
  document_ok d
  /\ exists d', download "screen.webm" "blob:1" d = Some d' /\ body d' = [0]
                /\ length (clicks d') = 1.
Proof.
  intros d.
  assert (Hok : document_ok d).
  { intros n Hn. apply list_elem_of_singleton in Hn. subst n. cbn. lia. }
  split; [exact Hok|].
  destruct (download_click "screen.webm" "blob:1" d Hok) as (d' & H1 & H2 & H3 & _).
  exists d'. split; [exact H1|]. split; [exact H2|]. rewrite H3. reflexivity.
Defined.

(** ** makeSeekable *)

(** X20. [makeSeekable] reads the whole file before anything is written: if
    the file is gone it throws and writes nothing. Otherwise, once the
    writable stream has been created, written and closed, the file holds
    exactly the seekable blob computed from its previous content (it is
    replaced, not appended to), and no other file is touched. *)
Theorem makeSeekable_in_place (getSeekableBlob : Blob -> Blob) (fileHandle : FileHandle)
    (files : gmap nat Blob) (rs : list Response) :
  (files !! fid fileHandle = None ->
   makeSeekable getSeekableBlob fileHandle files rs = (Thrown, files))
  /\ (forall content, files !! fid fileHandle = Some content -> resolves 3 rs = true ->
      exists files',
        makeSeekable getSeekableBlob fileHandle files rs = (Returned tt, files')
        /\ files' !! fid fileHandle = Some (getSeekableBlob content)
        /\ forall k, k <> fid fileHandle -> files' !! k = files !! k).
Proof.
  unfold makeSeekable, makeSeekable_read. split.
  - intros H. rewrite H. reflexivity.
  - intros content H Hres. rewrite H. cbn.
    destruct rs as [|[k1|] [|[k2|] [|[k3|] rs]]]; try discriminate Hres.
    cbn. eexists. split; [reflexivity|]. split.
    + apply lookup_insert_eq.
    + intros k Hk. apply lookup_insert_ne. congruence.
Qed.

Lemma makeSeekable_in_place_witness :
  let h := {| fid := 1; suggestedName := "screen.webm" |} in
  let files : gmap nat Blob := {[ 0 := [Byte.x00]; 1 := [Byte.x1a; Byte.x45] ]} in
  exists files',
    makeSeekable (fun b => Byte.xdf :: b) h files [Resolve []; Resolve []; Resolve []]
    = (Returned tt, files')
    /\ files' !! 1 = Some [Byte.xdf; Byte.x1a; Byte.x45]
    /\ files' !! 0 = Some [Byte.x00].
Proof.
  intros h files.
  destruct (makeSeekable_in_place (fun b => Byte.xdf :: b) h files
              [Resolve []; Resolve []; Resolve []]) as [_ H].
  destruct (H [Byte.x1a; Byte.x45] eq_refl eq_refl) as (files' & H1 & H2 & H3).
  exists files'. split; [exact H1|]. split; [exact H2|].
  etrans; [apply (H3 0); discriminate | reflexivity].
Defined.
